(** * The parts lifecycle manager (craft_parts/lifecycle_manager.py)

    A shallow embedding of [LifecycleManager] and [_build_part].  The
    module is a thin coordinator: everything it calls (plugins, parts,
    sequencer, executor, package repository, project information) lives
    in other modules, which appear here as an interface of collaborators.
    Python objects are modelled by explicit state passing, exceptions by
    an error result that leaves the state reached so far in place. *)

From Stdlib Require Import Ascii String ZArith Lia.
From stdpp Require Import base option list strings gmap.

Local Open Scope string_scope.
Local Open Scope Z_scope.
Local Open Scope list_scope.

(** ** Python values

    The parts definition is "compatible with the output generated by
    PyYAML's yaml.load": scalars, lists and string-keyed mappings.  A
    mapping keeps its insertion order, which the constructor's loop over
    [parts_data.items()] observes, so it is an association list.  Any
    other kind of object (a float, a date) is [PyOpaque], identified by a
    number and carrying its truth value. *)

#[warnings="-register-all"]
Inductive PyValue : Type :=
| PyNone
| PyBool (b : bool)
| PyInt (z : Z)
| PyStr (s : string)
| PyList (l : list PyValue)
| PyDict (d : list (string * PyValue))
| PyOpaque (truth : bool) (ident : N).

Definition PyDictT : Type := list (string * PyValue).

(** [isinstance(v, dict)] *)
Definition isinstance_dict (v : PyValue) : bool :=
  match v with PyDict _ => true | _ => false end.

(** Truth value testing, as [not v] and [if v:] use it. *)
Definition truthy (v : PyValue) : bool :=
  match v with
  | PyNone => false
  | PyBool b => b
  | PyInt z => negb (z =? 0)
  | PyStr s => negb (String.eqb s "")
  | PyList l => match l with [] => false | _ => true end
  | PyDict d => match d with [] => false | _ => true end
  | PyOpaque t _ => t
  end.

(** [key in d] and [d.get(key, default)] on a mapping. *)
Fixpoint dict_lookup (d : PyDictT) (key : string) : option PyValue :=
  match d with
  | [] => None
  | (k, v) :: d' => if String.eqb k key then Some v else dict_lookup d' key
  end.

Definition dict_contains (d : PyDictT) (key : string) : bool :=
  match dict_lookup d key with Some _ => true | None => false end.

Definition dict_get (d : PyDictT) (key : string) (default : PyValue) : PyValue :=
  match dict_lookup d key with Some v => v | None => default end.

(** [del d[key]] where present: the mapping without the key. *)
Fixpoint dict_remove (d : PyDictT) (key : string) : PyDictT :=
  match d with
  | [] => []
  | (k, v) :: d' =>
      if String.eqb k key then dict_remove d' key else (k, v) :: dict_remove d' key
  end.

(** ** Steps *)

(** Modelled from the spec: the [Step] enumeration of craft_parts.steps,
    which the module imports: section 3 gives its four members and their
    order. *)
Inductive Step : Type := PULL | BUILD | STAGE | PRIME.

(** ** Exceptions

    The exception classes of craft_parts.errors are declared outside the
    module; their fields here are the arguments the module constructs
    them with.  [ValidationError] is pydantic's, a subclass of
    [ValueError]; this is why [_build_part] lists it first among its
    handlers. *)

(** Modelled from the spec: what a [PartSpecificationError] carries
    besides the part name (section 4.1): the list of schema validation
    errors, as [from_validation_error] receives it, or a message. *)

Inductive SpecErrorDetail : Type :=
| ErrorList (error_list : list PyValue)
| Message (message : string).

Inductive Exception : Type :=
| InvalidApplicationName (name : string)
| TypeError (msg : string)
| ValueError (msg : string)
| ValidationError (errors : list PyValue)
| AttributeError (msg : string)
| UndefinedPlugin (part_name : string)
| InvalidPlugin (plugin_name : PyValue) (part_name : string)
| PartSpecificationError (part_name : string) (detail : SpecErrorDetail)
| OtherError (cls : string) (msg : string).

(** What [except ValueError] catches. *)
Definition is_ValueError (e : Exception) : bool :=
  match e with
  | ValueError _ | ValidationError _ => true
  | _ => false
  end.

(** [str(err)] for the exceptions whose text the module uses. *)
Definition str_exc (e : Exception) : string :=
  match e with
  | InvalidApplicationName n => n
  | TypeError m | ValueError m | AttributeError m | OtherError _ m => m
  | ValidationError _ => "validation error"
  | UndefinedPlugin p => p
  | InvalidPlugin _ p => p
  | PartSpecificationError p _ => p
  end.

(** The part an error names, where it names one. *)
Definition exc_part_name (e : Exception) : option string :=
  match e with
  | UndefinedPlugin p | InvalidPlugin _ p | PartSpecificationError p _ => Some p
  | _ => None
  end.

Inductive Result (A : Type) : Type :=
| Ok (a : A)
| Raise (e : Exception).
Arguments Ok {A} a.
Arguments Raise {A} e.

(** ** Regular expressions

    The application name is checked with
    [re.match("^[A-Za-z][0-9A-Za-z_]*$", application_name)].  The pattern
    body is a regular expression over character classes, matched by
    derivatives; [^] is implied by [re.match], and [$] (no MULTILINE flag)
    matches at the end of the string and also just before a newline that
    is the last character of the string. *)

Module Re.

Inductive regex : Type :=
| Void
| Eps
| Class (p : ascii -> bool)
| Cat (r1 r2 : regex)
| Alt (r1 r2 : regex)
| Star (r : regex).

Fixpoint nullable (r : regex) : bool :=
  match r with
  | Void => false
  | Eps => true
  | Class _ => false
  | Cat r1 r2 => nullable r1 && nullable r2
  | Alt r1 r2 => nullable r1 || nullable r2
  | Star _ => true
  end.

Fixpoint deriv (c : ascii) (r : regex) : regex :=
  match r with
  | Void => Void
  | Eps => Void
  | Class p => if p c then Eps else Void
  | Cat r1 r2 =>
      if nullable r1
      then Alt (Cat (deriv c r1) r2) (deriv c r2)
      else Cat (deriv c r1) r2
  | Alt r1 r2 => Alt (deriv c r1) (deriv c r2)
  | Star r1 => Cat (deriv c r1) (Star r1)
  end.

(** The whole of [s] is in the language of [r]. *)
Fixpoint fullmatch (r : regex) (s : string) : bool :=
  match s with
  | EmptyString => nullable r
  | String c s' => fullmatch (deriv c r) s'
  end.

Definition newline : ascii := ascii_of_nat 10.

(** [s] without its last character when that is a newline. *)
Fixpoint chomp (s : string) : option string :=
  match s with
  | EmptyString => None
  | String c EmptyString => if Ascii.eqb c newline then Some EmptyString else None
  | String c s' => option_map (String c) (chomp s')
  end.

(** [re.match("^" + r + "$", s) is not None] *)
Definition match_anchored (r : regex) (s : string) : bool :=
  fullmatch r s ||
  match chomp s with Some s' => fullmatch r s' | None => false end.

Definition in_range (lo hi : nat) (c : ascii) : bool :=
  let n := nat_of_ascii c in (Nat.leb lo n && Nat.leb n hi)%bool.

Definition upper : ascii -> bool := in_range 65 90.
Definition lower : ascii -> bool := in_range 97 122.
Definition digit : ascii -> bool := in_range 48 57.
Definition underscore : ascii -> bool := in_range 95 95.

(** [[A-Za-z]] and [[0-9A-Za-z_]] *)
Definition letter (c : ascii) : bool := upper c || lower c.
Definition word (c : ascii) : bool := digit c || upper c || lower c || underscore c.

End Re.

(** The pattern of [LifecycleManager.__init__], without its anchors. *)
Definition application_name_pattern : Re.regex :=
  Re.Cat (Re.Class Re.letter) (Re.Star (Re.Class Re.word)).

Definition application_name_matches (application_name : string) : bool :=
  Re.match_anchored application_name_pattern application_name.

(** ** Collaborators

    What the module imports from the rest of the package: the types it
    passes around and the operations it calls.  Each operation runs
    against the world outside the manager (file system, plugin registry,
    package cache, the state the sequencer and executor keep) and either
    returns or raises. *)

Inductive path : Type := Path (s : string).

Record Collaborators : Type := {
  World : Type;
  ProjectDirs : Type;
  ProjectInfo : Type;
  PluginClass : Type;
  Properties : Type;
  Part : Type;
  Sequencer : Type;
  Executor : Type;
  Action : Type;
  ExecutionContext : Type;
  (* craft_parts.dirs, craft_parts.infos *)
  ProjectDirs_new : string -> World -> Result ProjectDirs * World;
  ProjectInfo_new :
    string -> path -> string -> string -> Z -> ProjectDirs -> PyDictT ->
    World -> Result ProjectInfo * World;
  ProjectInfo_cache_dir : ProjectInfo -> path;
  ProjectInfo_target_arch : ProjectInfo -> string;
  (* craft_parts.plugins *)
  get_plugin_class : PyValue -> World -> Result PluginClass * World;
  unmarshal : PluginClass -> PyDictT -> World -> Result Properties * World;
  strip_plugin_properties : PyDictT -> PyValue -> World -> Result PyDictT * World;
  (* craft_parts.parts *)
  Part_new :
    string -> PyDictT -> ProjectDirs -> Properties -> World -> Result Part * World;
  (* craft_parts.sequencer *)
  Sequencer_new : list Part -> ProjectInfo -> World -> Result Sequencer * World;
  Sequencer_plan :
    Sequencer -> Step -> option (list string) -> World -> Result (list Action) * World;
  Sequencer_reload_state : Sequencer -> World -> Result unit * World;
  (* craft_parts.executor *)
  Executor_new :
    list Part -> ProjectInfo -> option (list string) -> World -> Result Executor * World;
  Executor_clean :
    Executor -> Step -> option (list string) -> World -> Result unit * World;
  ExecutionContext_new : Executor -> World -> Result ExecutionContext * World;
  (* craft_parts.packages.Repository *)
  refresh_stage_packages_list : path -> string -> World -> Result unit * World;
  refresh_build_packages_list : World -> Result unit * World
}.

(** The calls that leave the module, in the order they are made, and the
    entry of [_build_part]. *)
Inductive Event : Type :=
| EvProjectDirs (work_dir : string)
| EvProjectInfo (application_name : string) (cache_dir : path)
| EvBuildPart (name : string)
| EvGetPluginClass (plugin_name : PyValue)
| EvUnmarshal (spec : PyDictT)
| EvStripPluginProperties (spec : PyDictT) (plugin_name : PyValue)
| EvPart (name : string)
| EvSequencer
| EvExecutor
| EvSequencerPlan (target_step : Step) (part_names : option (list string))
| EvSequencerReloadState
| EvExecutorClean (initial_step : Step) (part_names : option (list string))
| EvExecutionContext
| EvRefreshStagePackagesList (cache_dir : path) (target_arch : string)
| EvRefreshBuildPackagesList.


Definition is_project_info (ev : Event) : bool :=
  match ev with EvProjectInfo _ _ => true | _ => false end.

(** Events of part construction and of sequencer or executor creation. *)
Definition is_construction (ev : Event) : bool :=
  match ev with
  | EvBuildPart _ | EvGetPluginClass _ | EvUnmarshal _
  | EvStripPluginProperties _ _ | EvPart _ | EvSequencer | EvExecutor => true
  | _ => false
  end.

(** Keyword arguments of the constructor. *)
Record Kwargs : Type := {
  application_name : string;
  cache_dir : string;
  work_dir : string;
  arch : string;
  base : string;
  parallel_build_count : Z;
  extra_build_packages : option (list string);
  custom_args : PyDictT
}.

(** The two required keywords, the others at their defaults. *)
Definition kwargs (application_name cache_dir : string) : Kwargs :=
  {| application_name := application_name;
     cache_dir := cache_dir;
     work_dir := ".";
     arch := "";
     base := "";
     parallel_build_count := 1;
     extra_build_packages := None;
     custom_args := [] |}.

Section Manager.

Context (C : Collaborators).

(** The attributes of a [LifecycleManager] object; [None] before the
    constructor has assigned the attribute. *)
Record LifecycleManager : Type := {
  _part_list : option (list (Part C));
  _application_name : option string;
  _target_arch : option string;
  _sequencer : option (Sequencer C);
  _executor : option (Executor C);
  _project_info : option (ProjectInfo C)
}.

Definition new_object : LifecycleManager :=
  {| _part_list := None; _application_name := None; _target_arch := None;
     _sequencer := None; _executor := None; _project_info := None |}.

Record Env : Type := {
  self : LifecycleManager;
  world : World C;
  trace : list Event
}.

(** *** State and exception monad *)

Definition M (A : Type) : Type := Env -> Result A * Env.

Definition ret {A} (a : A) : M A := fun s => (Ok a, s).

Definition raise {A} (e : Exception) : M A := fun s => (Raise e, s).

Definition bind {A B} (m : M A) (k : A -> M B) : M B :=
  fun s =>
    match m s with
    | (Ok a, s') => k a s'
    | (Raise e, s') => (Raise e, s')
    end.

(** [try: m except ...:] with the first handler that applies. *)
Definition try_except {A} (m : M A) (handler : Exception -> option (M A)) : M A :=
  fun s =>
    match m s with
    | (Ok a, s') => (Ok a, s')
    | (Raise e, s') =>
        match handler e with
        | Some h => h s'
        | None => (Raise e, s')
        end
    end.

Definition log (ev : Event) : M unit :=
  fun s => (Ok tt, {| self := self s; world := world s; trace := trace s ++ [ev] |}).

(** A call to a collaborator. *)
Definition call {A} (ev : Event) (f : World C -> Result A * World C) : M A :=
  fun s =>
    let (r, w) := f (world s) in
    (r, {| self := self s; world := w; trace := trace s ++ [ev] |}).

(** [self.attr], which raises when the attribute is not set. *)
Definition getattr {A} (name : string) (field : LifecycleManager -> option A) : M A :=
  fun s =>
    match field (self s) with
    | Some a => (Ok a, s)
    | None => (Raise (AttributeError name), s)
    end.

(** [self.attr = value] *)
Definition setattr (update : LifecycleManager -> LifecycleManager) : M unit :=
  fun s => (Ok tt, {| self := update (self s); world := world s; trace := trace s |}).

End Manager.

Arguments ret {C A} a.
Arguments raise {C A} e.
Arguments bind {C A B} m k.
Arguments try_except {C A} m handler.
Arguments log {C} ev.
Arguments call {C A} ev f.
Arguments getattr {C A} name field.
Arguments setattr {C} update.
Arguments self {C} e.
Arguments world {C} e.
Arguments trace {C} e.
Arguments _part_list {C} l.
Arguments _application_name {C} l.
Arguments _target_arch {C} l.
Arguments _sequencer {C} l.
Arguments _executor {C} l.
Arguments _project_info {C} l.

Declare Scope py_scope.
Delimit Scope py_scope with py.
Notation "x <- m ;; k" := (bind m (fun x => k))
  (at level 100, m at next level, right associativity) : py_scope.
Notation "m ;; k" := (bind m (fun _ => k))
  (at level 100, right associativity) : py_scope.


(** ** The module's code *)

Section Code.

Context (C : Collaborators).

Local Open Scope py_scope.

(** Lines 187-201 of [_build_part]: the plugin name is the [plugin] entry
    of the part, or the part name when that entry is missing or falsy;
    a failed lookup is reported according to where the name came from.
    Returns the plugin name with the plugin class. *)
Definition plugin_lookup (name : string) (spec : PyDictT)
  : M C (PyValue * PluginClass C) :=
  let plugin_name := dict_get spec "plugin" (PyStr "") in
  let part_name_as_plugin_name := negb (truthy plugin_name) in
  let plugin_name := if part_name_as_plugin_name then PyStr name else plugin_name in
  plugin_class <-
    try_except
      (call (EvGetPluginClass plugin_name) (get_plugin_class C plugin_name))
      (fun err =>
         if is_ValueError err
         then Some (if part_name_as_plugin_name
                    then raise (UndefinedPlugin name)
                    else raise (InvalidPlugin plugin_name name))
         else None) ;;
  ret (plugin_name, plugin_class).

(** Lines 203-218 of [_build_part]: validate and unmarshal the plugin
    properties, strip them from the specification (in place, so the part
    is built from the stripped mapping), and create the part. *)
Definition part_of_plugin (name : string) (spec : PyDictT)
    (project_dirs : ProjectDirs C)
    (plugin_name : PyValue) (plugin_class : PluginClass C) : M C (Part C) :=
  properties <-
    try_except
      (call (EvUnmarshal spec) (unmarshal C plugin_class spec))
      (fun err =>
         match err with
         | ValidationError errors =>
             Some (raise (PartSpecificationError name (ErrorList errors)))
         | _ =>
             if is_ValueError err
             then Some (raise (PartSpecificationError name (Message (str_exc err))))
             else None
         end) ;;
  spec' <- call (EvStripPluginProperties spec plugin_name)
                (strip_plugin_properties C spec plugin_name) ;;
  call (EvPart name) (Part_new C name spec' project_dirs properties).

Definition _build_part (name : string) (spec : PyValue)
    (project_dirs : ProjectDirs C) : M C (Part C) :=
  log (EvBuildPart name) ;;
  match spec with
  | PyDict spec =>
      found <- plugin_lookup name spec ;;
      let (plugin_name, plugin_class) := found in
      part_of_plugin name spec project_dirs plugin_name plugin_class
  | _ =>
      raise (PartSpecificationError name (Message "part definition is malformed"))
  end.

(** [for name, spec in parts_data.items(): part_list.append(...)] *)
Fixpoint build_part_list (items : PyDictT) (project_dirs : ProjectDirs C)
    (part_list : list (Part C)) : M C (list (Part C)) :=
  match items with
  | [] => ret part_list
  | (name, spec) :: items' =>
      part <- _build_part name spec project_dirs ;;
      build_part_list items' project_dirs (part_list ++ [part])
  end.

(** [parts_data.items()]: only a mapping has the method. *)
Definition items (parts_data : PyValue) : M C PyDictT :=
  match parts_data with
  | PyDict d => ret d
  | _ => raise (AttributeError "items")
  end.

Definition __init__ (all_parts : PyValue) (kw : Kwargs) : M C unit :=
  if negb (application_name_matches (application_name kw))
  then raise (InvalidApplicationName (application_name kw))
  else
    match all_parts with
    | PyDict all_parts =>
        if negb (dict_contains all_parts "parts")
        then raise (ValueError "parts definition is missing")
        else
          project_dirs <-
            call (EvProjectDirs (work_dir kw)) (ProjectDirs_new C (work_dir kw)) ;;
          project_info <-
            call (EvProjectInfo (application_name kw) (Path (cache_dir kw)))
                 (ProjectInfo_new C (application_name kw) (Path (cache_dir kw))
                    (arch kw) (base kw) (parallel_build_count kw) project_dirs
                    (custom_args kw)) ;;
          let parts_data := dict_get all_parts "parts" (PyDict []) in
          parts_items <- items parts_data ;;
          part_list <- build_part_list parts_items project_dirs [] ;;
          setattr (fun o => {| _part_list := Some part_list;
                               _application_name := _application_name o;
                               _target_arch := _target_arch o;
                               _sequencer := _sequencer o;
                               _executor := _executor o;
                               _project_info := _project_info o |}) ;;
          setattr (fun o => {| _part_list := _part_list o;
                               _application_name := Some (application_name kw);
                               _target_arch := _target_arch o;
                               _sequencer := _sequencer o;
                               _executor := _executor o;
                               _project_info := _project_info o |}) ;;
          setattr (fun o => {| _part_list := _part_list o;
                               _application_name := _application_name o;
                               _target_arch := Some (ProjectInfo_target_arch C project_info);
                               _sequencer := _sequencer o;
                               _executor := _executor o;
                               _project_info := _project_info o |}) ;;
          part_list' <- getattr "_part_list" _part_list ;;
          sequencer <- call EvSequencer (Sequencer_new C part_list' project_info) ;;
          setattr (fun o => {| _part_list := _part_list o;
                               _application_name := _application_name o;
                               _target_arch := _target_arch o;
                               _sequencer := Some sequencer;
                               _executor := _executor o;
                               _project_info := _project_info o |}) ;;
          part_list'' <- getattr "_part_list" _part_list ;;
          executor <-
            call EvExecutor
                 (Executor_new C part_list'' project_info (extra_build_packages kw)) ;;
          setattr (fun o => {| _part_list := _part_list o;
                               _application_name := _application_name o;
                               _target_arch := _target_arch o;
                               _sequencer := _sequencer o;
                               _executor := Some executor;
                               _project_info := _project_info o |}) ;;
          setattr (fun o => {| _part_list := _part_list o;
                               _application_name := _application_name o;
                               _target_arch := _target_arch o;
                               _sequencer := _sequencer o;
                               _executor := _executor o;
                               _project_info := Some project_info |})
    | _ => raise (TypeError "parts definition must be a dictionary")
    end.

(** The [project_info] property. *)
Definition project_info : M C (ProjectInfo C) :=
  getattr "_project_info" _project_info.

(** [clean(self, step=Step.PULL, *, part_names=None)]; [None] for [step]
    is the call that leaves the argument out. *)
Definition clean (step : option Step) (part_names : option (list string)) : M C unit :=
  let step := default PULL step in
  executor <- getattr "_executor" _executor ;;
  call (EvExecutorClean step part_names) (Executor_clean C executor step part_names).

(** [refresh_packages_list(self, *, system=False)] *)
Definition refresh_packages_list (system : option bool) : M C unit :=
  let system := default false system in
  info <- getattr "_project_info" _project_info ;;
  target_arch <- getattr "_target_arch" _target_arch ;;
  call (EvRefreshStagePackagesList (ProjectInfo_cache_dir C info) target_arch)
       (refresh_stage_packages_list C (ProjectInfo_cache_dir C info) target_arch) ;;
  if system
  then call EvRefreshBuildPackagesList (refresh_build_packages_list C)
  else ret tt.

(** [plan(self, target_step, part_names=None)] *)
Definition plan (target_step : Step) (part_names : option (list string))
  : M C (list (Action C)) :=
  sequencer <- getattr "_sequencer" _sequencer ;;
  actions <- call (EvSequencerPlan target_step part_names)
                  (Sequencer_plan C sequencer target_step part_names) ;;
  ret actions.

Definition reload_state : M C unit :=
  sequencer <- getattr "_sequencer" _sequencer ;;
  call EvSequencerReloadState (Sequencer_reload_state C sequencer).

Definition action_executor : M C (ExecutionContext C) :=
  executor <- getattr "_executor" _executor ;;
  call EvExecutionContext (ExecutionContext_new C executor).

(** A fresh object in a world, before [__init__] runs. *)
Definition before_init (w : World C) : Env C :=
  {| self := new_object C; world := w; trace := [] |}.

End Code.


(** ** The collaborators as the specification describes them

    The sequencer, the executor, the state store and the part graph are
    not part of the module; the definitions of this part follow the
    specification's sections 3 and 4. *)

(** Modelled from the spec: the total order PULL < BUILD < STAGE < PRIME
    of section 3. *)
Definition step_index (s : Step) : nat :=
  match s with PULL => 0 | BUILD => 1 | STAGE => 2 | PRIME => 3 end.

(** Modelled from the spec: the fixed sequence of steps (section 3). *)
Definition all_steps : list Step := [PULL; BUILD; STAGE; PRIME].

(** Modelled from the spec: the steps from PULL up to and including
    [target] (section 4.3, step 3). *)
Definition steps_upto (target : Step) : list Step :=
  filter (fun s => (step_index s <= step_index target)%nat) all_steps.

(** Modelled from the spec: [initial] and every step after it in the
    fixed order (section 4.4, clean). *)
Definition steps_from (initial : Step) : list Step :=
  filter (fun s => (step_index initial <= step_index s)%nat) all_steps.

(** Modelled from the spec: every step after [s] (section 4.3, step 4). *)
Definition steps_after (s : Step) : list Step :=
  filter (fun s' => (step_index s < step_index s')%nat) all_steps.

(** Modelled from the spec: STAGE and PRIME work on the areas shared by
    all parts (sections 3 and 4.4). *)
Definition shared_step (s : Step) : bool :=
  match s with STAGE | PRIME => true | _ => false end.

#[global] Instance Step_eq_dec : EqDecision Step.
Proof. solve_decision. Defined.

#[global] Instance Step_countable : Countable Step.
Proof.
  refine (inj_countable' step_index
            (fun n => match n with
                      | O => PULL | 1%nat => BUILD | 2%nat => STAGE | _ => PRIME
                      end) _).
  intros []; reflexivity.
Defined.

(** Modelled from the spec: the Part of section 3, without its working
    directories: name, plugin identifier, opaque plugin properties and
    the "after" list. *)
Record SpecPart : Type := {
  part_name : string;
  part_plugin : string;
  part_properties : PyDictT;
  part_after : list string
}.

(** Modelled from the spec: Project Info (section 3), the configuration
    snapshot built by the constructor. *)
Record SpecProjectInfo : Type := {
  info_application_name : string;
  info_cache_dir : path;
  info_arch : string;
  info_base : string;
  info_parallel_build_count : Z;
  info_work_dir : string;
  info_custom_args : PyDictT
}.

(** Modelled from the spec: the Step Record of section 3, with the
    fingerprint as a number. *)
Record StepRecord : Type := {
  completed : bool;
  fingerprint : N;
  outdated : bool
}.

Abbreviation StateStore := (gmap (string * Step) StepRecord).

(** Modelled from the spec: the action kinds of section 3. *)
Inductive ActionKind : Type := RUN | RERUN | SKIP | REAPPLY.

(** Modelled from the spec: the reason of an action, one for each of the
    five cases of section 4.3, step 3. *)
Inductive Reason : Type :=
| NoRecord
| MarkedOutdated
| FingerprintDiffers
| FilesChanged
| UpToDate.

(** Modelled from the spec: Action (section 3). *)
Record SpecAction : Type := {
  action_part : string;
  action_step : Step;
  action_kind : ActionKind;
  action_reason : Reason
}.

(** Modelled from the spec: the world of the collaborators: the state
    store in memory and on durable storage (section 4.2) and the package
    cache of section 6. *)
Record SpecWorld : Type := {
  memory : StateStore;
  disk : StateStore;
  stage_packages_list : option (path * string);
  build_packages_list : bool
}.

(** Modelled from the spec: what the specification leaves to the plugin
    library and to the fingerprinting (sections 1, 3 and 6): the registered plugin names, the property schema of
    each plugin, the fingerprint of a part's step and whether the files a
    part contributes to a shared area have changed. *)
Record Plugins : Type := {
  registry : list string;
  schema : string -> PyDictT -> Result PyDictT;
  current_fingerprint : SpecProjectInfo -> list SpecPart -> SpecPart -> Step -> N;
  files_changed : SpecPart -> Step -> bool
}.

Definition string_in (x : string) (l : list string) : bool :=
  existsb (String.eqb x) l.

(** Modelled from the spec: topologicalOrder of section 4.1.  Each round
    emits the first part, in declaration order, whose "after" names have
    all been emitted; with no such part (a cycle, or a name that is not a
    part) there is no order. *)
Fixpoint topological_rounds (fuel : nat) (pending emitted : list SpecPart)
  : option (list SpecPart) :=
  match pending with
  | [] => Some emitted
  | _ =>
      match fuel with
      | O => None
      | S fuel' =>
          let ready p :=
            forallb (fun a => string_in a (map part_name emitted)) (part_after p) in
          match List.find ready pending with
          | None => None
          | Some p =>
              topological_rounds fuel'
                (filter (fun q => negb (String.eqb (part_name q) (part_name p))) pending)
                (emitted ++ [p])
          end
      end
  end.

(** Modelled from the spec: topologicalOrder (section 4.1), one round for
    each part. *)
Definition topologicalOrder (parts : list SpecPart) : option (list SpecPart) :=
  topological_rounds (length parts) parts [].

(** Modelled from the spec: markOutdated of section 4.2: the flag of an
    existing record is set, and there is nothing to mark without one. *)
Definition markOutdated (store : StateStore) (name : string) (s : Step) : StateStore :=
  match store !! (name, s) with
  | Some r =>
      <[(name, s) := {| completed := completed r;
                        fingerprint := fingerprint r;
                        outdated := true |}]> store
  | None => store
  end.

(** Modelled from the spec: erase of section 4.2, on the records. *)
Definition erase (store : StateStore) (name : string) (s : Step) : StateStore :=
  delete (name, s) store.

(** Modelled from the spec: a sequencer and an executor are built from
    the part list and the project information (section 2). *)
Record SpecSequencer : Type := {
  seq_parts : list SpecPart;
  seq_info : SpecProjectInfo
}.

(** Modelled from the spec: the executor's side of the same pair. *)
Record SpecExecutor : Type := {
  exe_parts : list SpecPart;
  exe_info : SpecProjectInfo;
  exe_extra_build_packages : option (list string)
}.

Section SpecModel.

Context (P : Plugins).

(** Modelled from the spec: section 4.3, step 3: the action for a part's
    step, from its record in the state store. *)
Definition decide_action (info : SpecProjectInfo) (parts : list SpecPart)
    (store : StateStore) (p : SpecPart) (s : Step) : SpecAction :=
  let act k r :=
    {| action_part := part_name p; action_step := s;
       action_kind := k; action_reason := r |} in
  match store !! (part_name p, s) with
  | None => act RUN NoRecord
  | Some r =>
      if outdated r then act RERUN MarkedOutdated
      else if negb (N.eqb (fingerprint r) (current_fingerprint P info parts p s))
      then act RERUN FingerprintDiffers
      else if shared_step s && files_changed P p s
      then act REAPPLY FilesChanged
      else act SKIP UpToDate
  end.

(** Modelled from the spec: section 4.3, step 4: after RUN or RERUN of
    [p]'s step [s], the later steps of [p] and the STAGE and PRIME steps
    of the parts that come after [p] are marked outdated. *)
Definition cascade (parts : list SpecPart) (store : StateStore)
    (p : SpecPart) (s : Step) : StateStore :=
  let own := foldl (fun st s' => markOutdated st (part_name p) s') store (steps_after s) in
  let dependents := List.filter (fun q => string_in (part_name p) (part_after q)) parts in
  foldl (fun st q => markOutdated (markOutdated st (part_name q) STAGE) (part_name q) PRIME)
        own dependents.

(** Modelled from the spec: the kinds that trigger the cascade of section
    4.3, step 4. *)
Definition needs_work (k : ActionKind) : bool :=
  match k with RUN | RERUN => true | _ => false end.

(** Modelled from the spec: section 4.3, steps 3 and 4, for one part at
    one step: the action joins the plan and the cascade is applied to the
    store the next decisions read. *)
Definition plan_part_step (info : SpecProjectInfo) (parts : list SpecPart) (s : Step)
    (acc : list SpecAction * StateStore) (p : SpecPart) : list SpecAction * StateStore :=
  let a := decide_action info parts acc.2 p s in
  ((acc.1 ++ [a])%list,
   if needs_work (action_kind a) then cascade parts acc.2 p s else acc.2).

(** Modelled from the spec: section 4.3, step 3, for one step: each
    selected part in topological order. *)
Definition plan_step (info : SpecProjectInfo) (parts selected : list SpecPart)
    (acc : list SpecAction * StateStore) (s : Step) : list SpecAction * StateStore :=
  foldl (plan_part_step info parts s) acc selected.

(** Modelled from the spec: section 4.3, step 1: all parts when no names
    are given, else the named parts; an unknown name is an error. *)
Definition resolve_parts (parts : list SpecPart) (part_names : option (list string))
  : Result (list string) :=
  match part_names with
  | None | Some [] => Ok (map part_name parts)
  | Some names =>
      match List.find (fun n => negb (string_in n (map part_name parts))) names with
      | Some n => Raise (OtherError "PartNotFound" n)
      | None => Ok names
      end
  end.

(** Modelled from the spec: [plan] of section 4.3: for each step from
    PULL up to the target, for each selected part in topological order. *)
Definition sequencer_plan (seq : SpecSequencer) (target : Step)
    (part_names : option (list string)) (w : SpecWorld)
  : Result (list SpecAction) * SpecWorld :=
  match resolve_parts (seq_parts seq) part_names with
  | Raise e => (Raise e, w)
  | Ok names =>
      match topologicalOrder (seq_parts seq) with
      | None => (Raise (OtherError "PartDependencyCycle" ""), w)
      | Some ordered =>
          let selected := List.filter (fun p => string_in (part_name p) names) ordered in
          let r := foldl (plan_step (seq_info seq) (seq_parts seq) selected)
                         ([], memory w) (steps_upto target) in
          (Ok r.1,
           {| memory := r.2; disk := disk w;
              stage_packages_list := stage_packages_list w;
              build_packages_list := build_packages_list w |})
      end
  end.

(** Modelled from the spec: [reload] of section 4.2. *)
Definition sequencer_reload_state (seq : SpecSequencer) (w : SpecWorld)
  : Result unit * SpecWorld :=
  (Ok tt,
   {| memory := disk w; disk := disk w;
      stage_packages_list := stage_packages_list w;
      build_packages_list := build_packages_list w |}).

(** Modelled from the spec: the part graph behind a sequencer is built
    at construction, where a cycle or an unknown "after" name is an error
    (sections 3 and 4.1); the session starts from the durable state. *)
Definition sequencer_new (parts : list SpecPart) (info : SpecProjectInfo) (w : SpecWorld)
  : Result SpecSequencer * SpecWorld :=
  match topologicalOrder parts with
  | None => (Raise (OtherError "PartDependencyCycle" ""), w)
  | Some _ =>
      (Ok {| seq_parts := parts; seq_info := info |},
       {| memory := disk w; disk := disk w;
          stage_packages_list := stage_packages_list w;
          build_packages_list := build_packages_list w |})
  end.

(** Modelled from the spec: the executor is constructed against the
    same parts and project information (section 2). *)
Definition executor_new (parts : list SpecPart) (info : SpecProjectInfo)
    (extra : option (list string)) (w : SpecWorld) : Result SpecExecutor * SpecWorld :=
  (Ok {| exe_parts := parts; exe_info := info; exe_extra_build_packages := extra |}, w).

(** Modelled from the spec: section 4.4, clean: every record of the
    named parts from the initial step on is erased. *)
Definition erase_from (names : list string) (initial : Step) (store : StateStore)
  : StateStore :=
  foldl (fun st n => foldl (fun st' s => erase st' n s) st (steps_from initial))
        store names.

(** Modelled from the spec: section 4.4, clean: the records of the
    shared steps that were cleaned are marked outdated for the other
    parts. *)
Definition outdate_others (others : list string) (initial : Step) (store : StateStore)
  : StateStore :=
  foldl (fun st n =>
           foldl (fun st' s => markOutdated st' n s) st
                 (List.filter shared_step (steps_from initial)))
        store others.

(** Modelled from the spec: [clean] of section 4.4: the records of the
    selected parts (all parts when none is named) for the initial step and
    every later step are removed, and the records of the shared steps
    among them are marked outdated for every other part. *)
Definition executor_clean (exe : SpecExecutor) (initial : Step)
    (part_names : option (list string)) (w : SpecWorld) : Result unit * SpecWorld :=
  match resolve_parts (exe_parts exe) part_names with
  | Raise e => (Raise e, w)
  | Ok names =>
      let others :=
        List.filter (fun n => negb (string_in n names)) (map part_name (exe_parts exe)) in
      let sweep store := outdate_others others initial (erase_from names initial store) in
      (Ok tt,
       {| memory := sweep (memory w); disk := sweep (disk w);
          stage_packages_list := stage_packages_list w;
          build_packages_list := build_packages_list w |})
  end.

(** Modelled from the spec: the plugin lookup of section 6: a registered
    name gives the plugin, any other identifier is unknown. *)
Definition spec_get_plugin_class (plugin_name : PyValue) (w : SpecWorld)
  : Result string * SpecWorld :=
  match plugin_name with
  | PyStr n =>
      if string_in n (registry P) then (Ok n, w)
      else (Raise (ValueError "plugin not registered"), w)
  | _ => (Raise (ValueError "plugin not registered"), w)
  end.

(** Modelled from the spec: the "after" entry of a part specification
    is a list of part names (section 3). *)
Fixpoint names_of (l : list PyValue) : option (list string) :=
  match l with
  | [] => Some []
  | PyStr n :: l' => option_map (cons n) (names_of l')
  | _ => None
  end.

(** Modelled from the spec: the declared "after" list, empty when the
    specification has none (section 3). *)
Definition after_of (spec : PyDictT) : option (list string) :=
  match dict_lookup spec "after" with
  | None => Some []
  | Some (PyList l) => names_of l
  | Some _ => None
  end.

(** Modelled from the spec: a Part from its name, its specification and
    its validated plugin properties (section 3). *)
Definition part_new (name : string) (spec : PyDictT) (dirs : string)
    (properties : PyDictT) (w : SpecWorld) : Result SpecPart * SpecWorld :=
  match after_of spec with
  | None => (Raise (PartSpecificationError name (Message "after: invalid value")), w)
  | Some after =>
      (Ok {| part_name := name;
             part_plugin :=
               match dict_lookup spec "plugin" with
               | Some (PyStr n) => if String.eqb n "" then name else n
               | _ => name
               end;
             part_properties := properties;
             part_after := after |}, w)
  end.

(** Modelled from the spec: the stage package refresh of section 6. *)
Definition spec_refresh_stage (cache : path) (target : string) (w : SpecWorld)
  : Result unit * SpecWorld :=
  (Ok tt,
   {| memory := memory w; disk := disk w;
      stage_packages_list := Some (cache, target);
      build_packages_list := build_packages_list w |}).

(** Modelled from the spec: the build package refresh of section 6. *)
Definition spec_refresh_build (w : SpecWorld) : Result unit * SpecWorld :=
  (Ok tt,
   {| memory := memory w; disk := disk w;
      stage_packages_list := stage_packages_list w;
      build_packages_list := true |}).

(** Modelled from the spec: the collaborators of the lifecycle manager as
    sections 3, 4 and 6 of the specification describe them. *)
Definition spec_collaborators : Collaborators :=
  {| World := SpecWorld;
     ProjectDirs := string;
     ProjectInfo := SpecProjectInfo;
     PluginClass := string;
     Properties := PyDictT;
     Part := SpecPart;
     Sequencer := SpecSequencer;
     Executor := SpecExecutor;
     Action := SpecAction;
     ExecutionContext := SpecExecutor;
     ProjectDirs_new := fun work_dir w => (Ok work_dir, w);
     ProjectInfo_new := fun name cache arch base count dirs custom w =>
       (Ok {| info_application_name := name; info_cache_dir := cache;
              info_arch := arch; info_base := base;
              info_parallel_build_count := count; info_work_dir := dirs;
              info_custom_args := custom |}, w);
     ProjectInfo_cache_dir := info_cache_dir;
     ProjectInfo_target_arch := info_arch;
     get_plugin_class := spec_get_plugin_class;
     unmarshal := fun cls spec w => (schema P cls spec, w);
     strip_plugin_properties := fun spec _ w => (Ok spec, w);
     Part_new := part_new;
     Sequencer_new := sequencer_new;
     Sequencer_plan := sequencer_plan;
     Sequencer_reload_state := sequencer_reload_state;
     Executor_new := executor_new;
     Executor_clean := executor_clean;
     ExecutionContext_new := fun exe w => (Ok exe, w);
     refresh_stage_packages_list := spec_refresh_stage;
     refresh_build_packages_list := spec_refresh_build |}.

End SpecModel.

(** The world before anything ran: no step record, no package list. *)
Definition empty_world : SpecWorld :=
  {| memory := ∅; disk := ∅;
     stage_packages_list := None; build_packages_list := false |}.

(** Plugins of the scenarios: the [nil] plugin only, which has no
    properties; [strict] adds a plugin whose schema accepts no
    specification at all. *)
Definition nil_plugins_with
    (fp : SpecProjectInfo -> list SpecPart -> SpecPart -> Step -> N)
    (fc : SpecPart -> Step -> bool) : Plugins :=
  {| registry := ["nil"];
     schema := fun _ _ => Ok [];
     current_fingerprint := fp;
     files_changed := fc |}.

Definition nil_plugins : Plugins :=
  nil_plugins_with (fun _ _ _ _ => 0%N) (fun _ _ => false).

Definition strict_plugins : Plugins :=
  {| registry := ["nil"; "strict"; "picky"];
     schema := fun cls _ =>
       if String.eqb cls "strict"
       then Raise (ValidationError [PyDict [("msg", PyStr "extra field")]])
       else if String.eqb cls "picky" then Raise (ValueError "bad value")
       else Ok [];
     current_fingerprint := fun _ _ _ _ => 0%N;
     files_changed := fun _ _ => false |}.

(** The parts of the scenario:
    [{foo: {plugin: nil}, bar: {plugin: nil, after: [foo]}}]. *)
Definition foo_bar : PyValue :=
  PyDict [("parts",
           PyDict [("foo", PyDict [("plugin", PyStr "nil")]);
                   ("bar", PyDict [("plugin", PyStr "nil");
                                   ("after", PyList [PyStr "foo"])])])].


(** The scenarios start from a fresh object in the empty world. *)
Definition nil_collaborators : Collaborators := spec_collaborators nil_plugins.

Definition strict_collaborators : Collaborators := spec_collaborators strict_plugins.

Definition start : Env nil_collaborators := before_init nil_collaborators empty_world.

Definition strict_start : Env strict_collaborators :=
  before_init strict_collaborators empty_world.

(** The environment after the events [evs], with the world at [w] and the
    object as it was. *)
Definition after_events {C : Collaborators} (s : Env C) (w : World C)
    (evs : list Event) : Env C :=
  {| self := self s; world := w; trace := (trace s ++ evs)%list |}.

(** The names the pattern describes, character by character: a letter
    followed by letters, digits and underscores. *)
Fixpoint all_word (s : string) : bool :=
  match s with
  | EmptyString => true
  | String c s' => Re.word c && all_word s'
  end.

Definition letter_then_words (s : string) : bool :=
  match s with
  | EmptyString => false
  | String c s' => Re.letter c && all_word s'
  end.

(** An operation leaves the manager's attributes as they are. *)
Definition keeps_self {C : Collaborators} {A} (m : M C A) : Prop :=
  forall s, self (m s).2 = self s.

(** An operation only appends events, all of them satisfying [ok]. *)
Definition emits {C : Collaborators} {A} (ok : Event -> bool) (m : M C A) : Prop :=
  forall s, exists evs,
    trace (m s).2 = (trace s ++ evs)%list /\ forallb ok evs = true.

(** The public operations of a constructed manager, and a run of them
    that keeps the environment and drops the results. *)
Inductive Operation : Type :=
| OpProjectInfo
| OpClean (step : option Step) (part_names : option (list string))
| OpRefreshPackagesList (system : option bool)
| OpPlan (target_step : Step) (part_names : option (list string))
| OpReloadState
| OpActionExecutor.

Definition run_operation (C : Collaborators) (s : Env C) (op : Operation) : Env C :=
  match op with
  | OpProjectInfo => (project_info C s).2
  | OpClean step part_names => (clean C step part_names s).2
  | OpRefreshPackagesList system => (refresh_packages_list C system s).2
  | OpPlan target_step part_names => (plan C target_step part_names s).2
  | OpReloadState => (reload_state C s).2
  | OpActionExecutor => (action_executor C s).2
  end.

Definition run_operations (C : Collaborators) (s : Env C) (ops : list Operation) : Env C :=
  foldl (run_operation C) s ops.

Definition is_ok {A} (r : Result A) : bool :=
  match r with Ok _ => true | Raise _ => false end.

(** The events a computation added to the trace. *)
Definition new_events {C : Collaborators} (s s' : Env C) : list Event :=
  drop (length (trace s)) (trace s').

(** The manager of the scenario, constructed. *)
Definition foo_bar_manager : Env nil_collaborators :=
  (__init__ nil_collaborators foo_bar (kwargs "test_app" "cache") start).2.

(** The names of the parts whose construction was started, in order. *)
Definition built_names (evs : list Event) : list string :=
  omap (fun ev => match ev with EvBuildPart n => Some n | _ => None end) evs.

(** The events the constructor can emit. *)
Definition is_init_event (ev : Event) : bool :=
  match ev with
  | EvProjectDirs _ | EvProjectInfo _ _ => true
  | _ => is_construction ev
  end.

Definition is_sequencer_or_executor (ev : Event) : bool :=
  match ev with EvSequencer | EvExecutor => true | _ => false end.

(** The events of [_build_part]. *)
Definition is_part_event (ev : Event) : bool :=
  is_construction ev && negb (is_sequencer_or_executor ev).

Definition is_build_part (ev : Event) : bool :=
  match ev with EvBuildPart _ => true | _ => false end.

(** The first two events of a constructor that passed its checks. *)
Definition head_events (kw : Kwargs) : list Event :=
  [EvProjectDirs (work_dir kw);
   EvProjectInfo (application_name kw) (Path (cache_dir kw))].

(** The object after the first three assignments of the constructor, after
    the fourth, and after all six. *)
Definition with_parts {C : Collaborators} (o : LifecycleManager C)
    (part_list : list (Part C)) (kw : Kwargs) (info : ProjectInfo C)
  : LifecycleManager C :=
  {| _part_list := Some part_list;
     _application_name := Some (application_name kw);
     _target_arch := Some (ProjectInfo_target_arch C info);
     _sequencer := _sequencer o;
     _executor := _executor o;
     _project_info := _project_info o |}.

Definition with_sequencer {C : Collaborators} (o : LifecycleManager C)
    (part_list : list (Part C)) (kw : Kwargs) (info : ProjectInfo C)
    (sequencer : Sequencer C) : LifecycleManager C :=
  {| _part_list := Some part_list;
     _application_name := Some (application_name kw);
     _target_arch := Some (ProjectInfo_target_arch C info);
     _sequencer := Some sequencer;
     _executor := _executor o;
     _project_info := _project_info o |}.

Definition constructed {C : Collaborators}
    (part_list : list (Part C)) (kw : Kwargs) (info : ProjectInfo C)
    (sequencer : Sequencer C) (executor : Executor C) : LifecycleManager C :=
  {| _part_list := Some part_list;
     _application_name := Some (application_name kw);
     _target_arch := Some (ProjectInfo_target_arch C info);
     _sequencer := Some sequencer;
     _executor := Some executor;
     _project_info := Some info |}.

(** The constructor once the parts are built: lines 102-114. *)
Definition after_parts {C : Collaborators} (kw : Kwargs) (info : ProjectInfo C)
    (built : Result (list (Part C)) * Env C) : Result unit * Env C :=
  match built with
  | (Raise e, s3) => (Raise e, s3)
  | (Ok pl, s3) =>
      match Sequencer_new C pl info (world s3) with
      | (Raise e, w4) =>
          (Raise e,
           {| self := with_parts (self s3) pl kw info; world := w4;
              trace := trace s3 ++ [EvSequencer] |})
      | (Ok sq, w4) =>
          match Executor_new C pl info (extra_build_packages kw) w4 with
          | (Raise e, w5) =>
              (Raise e,
               {| self := with_sequencer (self s3) pl kw info sq; world := w5;
                  trace := trace s3 ++ [EvSequencer; EvExecutor] |})
          | (Ok ex, w5) =>
              (Ok tt,
               {| self := constructed pl kw info sq ex; world := w5;
                  trace := trace s3 ++ [EvSequencer; EvExecutor] |})
          end
      end
  end.

(** ** The setup script (setup.py) *)

Module SetupPy.

(** The files the script reads: [open(path).read()] gives the text of a
    file or raises. *)
Definition FileSystem : Type := string -> Result string.

(** What [except FileNotFoundError] catches; the class is carried by
    [OtherError] under its name. *)
Definition is_FileNotFoundError (e : Exception) : bool :=
  match e with
  | OtherError cls _ => String.eqb cls "FileNotFoundError"
  | _ => false
  end.

(** [needle in haystack] on strings: [needle] starts at some position. *)
Fixpoint str_contains (needle haystack : string) : bool :=
  String.prefix needle haystack ||
  match haystack with
  | EmptyString => false
  | String _ rest => str_contains needle rest
  end.

Definition is_ubuntu (fs : FileSystem) : Result bool :=
  match fs "/etc/os-release" with
  | Ok os_release => Ok (str_contains "ID=ubuntu" os_release)
  | Raise e => if is_FileNotFoundError e then Ok false else Raise e
  end.

(** [install_requires] as first assigned, before the Ubuntu addition. *)
Definition install_requires : list string :=
  ["PyYAML"; "pydantic==1.8.2"; "pydantic-yaml==0.4.3"; "pyxdg"; "requests";
   "requests-unixsocket"].

Definition dev_requires : list string := ["autoflake"; "twine"].

Definition doc_requires : list string :=
  ["sphinx"; "sphinx-autodoc-typehints"; "sphinx-pydantic"; "sphinx-rtd-theme"].

Definition test_requires : list string :=
  ["black"; "codespell"; "coverage"; "flake8"; "isort"; "mypy"; "pydocstyle";
   "pylint<2.12.0"; "pylint-fixme-info"; "pylint-pytest"; "pytest"; "pytest-mock";
   "requests-mock"; "tox"; "types-PyYAML"; "types-requests"].

Definition extras_requires : list (string * list string) :=
  [("dev", dev_requires ++ doc_requires ++ test_requires);
   ("doc", doc_requires);
   ("test", test_requires)].

(** The keyword arguments of the [setup(...)] call. *)
Record SetupCall : Type := {
  name : string;
  version : string;
  description : string;
  long_description : string;
  author : string;
  author_email : string;
  url : string;
  license : string;
  python_requires : string;
  classifiers : list string;
  entry_points : list (string * list string);
  setup_install_requires : list string;
  extras_require : list (string * list string);
  packages : list string;
  package_data : list (string * list string);
  include_package_data : bool;
  zip_safe : bool
}.

(** The module body, top to bottom: read README.md, extend the
    requirements on Ubuntu, call [setup].  [find_packages] is
    setuptools'. *)
Definition script (fs : FileSystem) (find_packages : list string -> list string)
  : Result SetupCall :=
  match fs "README.md" with
  | Raise e => Raise e
  | Ok readme =>
      match is_ubuntu fs with
      | Raise e => Raise e
      | Ok ubuntu =>
          let install_requires :=
            if ubuntu then install_requires ++ ["python-apt"] else install_requires in
          Ok {| name := "craft-parts";
                version := "1.1.0";
                description := "Craft parts tooling";
                long_description := readme;
                author := "Canonical Ltd.";
                author_email := "snapcraft@lists.snapcraft.io";
                url := "https://github.com/canonical/craft-parts";
                license := "GNU General Public License v3";
                python_requires := ">=3.7";
                classifiers :=
                  ["Development Status :: 2 - Pre-Alpha";
                   "Intended Audience :: Developers";
                   "License :: OSI Approved :: GNU Lesser General Public License v3 (LGPLv3)";
                   "Natural Language :: English";
                   "Programming Language :: Python :: 3.7";
                   "Programming Language :: Python :: 3.8";
                   "Programming Language :: Python :: 3.9"];
                entry_points :=
                  [("console_scripts", ["partsctl=craft_parts.ctl:main"])];
                setup_install_requires := install_requires;
                extras_require := extras_requires;
                packages := find_packages ["craft_parts"; "craft_parts.*"];
                package_data := [("craft_parts", ["py.typed"])];
                include_package_data := true;
                zip_safe := false |}
      end
  end.

(** File systems to try the script on. *)
Definition files (l : list (string * string)) : FileSystem :=
  fun path =>
    match List.find (fun f => String.eqb f.1 path) l with
    | Some f => Ok f.2
    | None => Raise (OtherError "FileNotFoundError" path)
    end.

End SetupPy.

(** ** Stand-ins to run the module on

    Collaborators that log their calls in the world and fail on request:
    an unregistered plugin name is a [ValueError] and an identifier that
    is not a string a [TypeError]; a specification with the key [crash]
    makes the validation fail outside [ValueError], one with [frozen]
    cannot be stripped, one with [broken] makes the part constructor
    raise a [ValueError]; the architecture [unknown] has no stage
    package list.  Stripping removes the keys that start with the plugin
    name and a dash. *)

Definition stub_prefixed (plugin key : string) : bool :=
  String.prefix (String.append plugin "-") key.

Definition stub_get_plugin_class (p : PyValue) (w : list string)
  : Result string * list string :=
  match p with
  | PyStr n =>
      if string_in n ["nil"; "dump"] then (Ok n, w ++ ["get_plugin_class"])
      else (Raise (ValueError "plugin not registered"), w ++ ["get_plugin_class"])
  | _ => (Raise (TypeError "unhashable type"), w ++ ["get_plugin_class"])
  end.

Definition stub_unmarshal (cls : string) (spec : PyDictT) (w : list string)
  : Result PyDictT * list string :=
  if dict_contains spec "crash"
  then (Raise (OtherError "RuntimeError" "crash"), w ++ ["unmarshal"])
  else (Ok (List.filter (fun kv => stub_prefixed cls kv.1) spec), w ++ ["unmarshal"]).

Definition stub_strip (spec : PyDictT) (p : PyValue) (w : list string)
  : Result PyDictT * list string :=
  if dict_contains spec "frozen"
  then (Raise (ValueError "frozen"), w ++ ["strip_plugin_properties"])
  else
    (Ok match p with
        | PyStr n => List.filter (fun kv => negb (stub_prefixed n kv.1)) spec
        | _ => spec
        end, w ++ ["strip_plugin_properties"]).

Definition stub_part (n : string) (spec : PyDictT) (dirs : string) (props : PyDictT)
    (w : list string) : Result (string * PyDictT * PyDictT) * list string :=
  if dict_contains spec "broken"
  then (Raise (ValueError "broken part"), w ++ ["Part"])
  else (Ok (n, spec, props), w ++ ["Part"]).

Definition stub_collaborators : Collaborators :=
  {| World := list string;
     ProjectDirs := string;
     ProjectInfo := string * path * string;
     PluginClass := string;
     Properties := PyDictT;
     Part := string * PyDictT * PyDictT;
     Sequencer := list (string * PyDictT * PyDictT) * (string * path * string);
     Executor := list (string * PyDictT * PyDictT) * (string * path * string);
     Action := string * Step;
     ExecutionContext := unit;
     ProjectDirs_new := fun work_dir w => (Ok work_dir, w ++ ["ProjectDirs"]);
     ProjectInfo_new := fun n cache arch _ _ _ _ w =>
       (Ok (n, cache, arch), w ++ ["ProjectInfo"]);
     ProjectInfo_cache_dir := fun info => info.1.2;
     ProjectInfo_target_arch := fun info => info.2;
     get_plugin_class := stub_get_plugin_class;
     unmarshal := stub_unmarshal;
     strip_plugin_properties := stub_strip;
     Part_new := stub_part;
     Sequencer_new := fun parts info w => (Ok (parts, info), w ++ ["Sequencer"]);
     Sequencer_plan := fun seq target _ w =>
       (Ok (map (fun part => (part.1.1, target)) seq.1), w ++ ["plan"]);
     Sequencer_reload_state := fun _ w => (Ok tt, w ++ ["reload_state"]);
     Executor_new := fun parts info _ w => (Ok (parts, info), w ++ ["Executor"]);
     Executor_clean := fun _ _ _ w => (Ok tt, w ++ ["clean"]);
     ExecutionContext_new := fun _ w => (Ok tt, w ++ ["ExecutionContext"]);
     refresh_stage_packages_list := fun _ arch w =>
       if String.eqb arch "unknown"
       then (Raise (OtherError "CacheUpdateFailed" arch), w ++ ["refresh_stage"])
       else (Ok tt, w ++ ["refresh_stage"]);
     refresh_build_packages_list := fun w => (Ok tt, w ++ ["refresh_build"]) |}.

Definition stub_start : Env stub_collaborators := before_init stub_collaborators [].

(** The scenario's manager on the stand-ins, and the constructor
    arguments for an architecture without a stage package list. *)
Definition stub_manager (kw : Kwargs) : Env stub_collaborators :=
  (__init__ stub_collaborators foo_bar kw stub_start).2.

Definition unknown_arch : Kwargs :=
  {| application_name := "test_app"; cache_dir := "cache"; work_dir := ".";
     arch := "unknown"; base := ""; parallel_build_count := 1;
     extra_build_packages := None; custom_args := [] |}.

(** * Properties *)

(** ** The application name pattern *)

Section RegexFacts.

Import Re.

Lemma fullmatch_Void s : fullmatch Void s = false.
Proof. induction s as [|c s IH]; simpl; auto. Qed.

Lemma fullmatch_Cat_Void r s : fullmatch (Cat Void r) s = false.
Proof. induction s as [|c s IH]; simpl; auto. Qed.

Lemma fullmatch_Alt r1 r2 s :
  fullmatch (Alt r1 r2) s = fullmatch r1 s || fullmatch r2 s.
Proof.
  revert r1 r2. induction s as [|c s IH]; intros r1 r2; simpl; auto.
Qed.

Lemma fullmatch_words s :
  fullmatch (Cat Eps (Star (Class word))) s = all_word s.
Proof.
  induction s as [|c s IH]; simpl; auto.
  rewrite fullmatch_Alt, fullmatch_Cat_Void. simpl.
  destruct (word c); simpl; auto using fullmatch_Cat_Void.
Qed.

Lemma fullmatch_application_name s :
  fullmatch application_name_pattern s = letter_then_words s.
Proof.
  destruct s as [|c s]; simpl; auto.
  destruct (letter c); simpl; auto using fullmatch_words, fullmatch_Cat_Void.
Qed.

(** The check of the constructor accepts exactly a letter followed by
    letters, digits and underscores, optionally followed by one newline
    at the very end. *)
Lemma application_name_matches_chars s :
  application_name_matches s =
  letter_then_words s ||
  match chomp s with Some s' => letter_then_words s' | None => false end.
Proof.
  unfold application_name_matches, match_anchored.
  rewrite fullmatch_application_name.
  destruct (chomp s); auto using fullmatch_application_name.
  now rewrite fullmatch_application_name.
Qed.

End RegexFacts.

Example application_name_1bad : application_name_matches "1bad" = false.
Proof. reflexivity. Qed.

Example application_name_test_app : application_name_matches "test_app" = true.
Proof. reflexivity. Qed.

Example application_name_empty : application_name_matches "" = false.
Proof. reflexivity. Qed.

Example application_name_dash : application_name_matches "my-app" = false.
Proof. reflexivity. Qed.

Example application_name_trailing_newline :
  application_name_matches (String "a" (String Re.newline EmptyString)) = true.
Proof. reflexivity. Qed.

(** ** The constructor's checks *)

Section ConstructorChecks.

Context (C : Collaborators).

Lemma init_invalid_name all_parts kw (s : Env C) :
  application_name_matches (application_name kw) = false ->
  __init__ C all_parts kw s = (Raise (InvalidApplicationName (application_name kw)), s).
Proof. intros H. unfold __init__. now rewrite H. Qed.

Lemma init_not_dict all_parts kw (s : Env C) :
  application_name_matches (application_name kw) = true ->
  isinstance_dict all_parts = false ->
  __init__ C all_parts kw s =
  (Raise (TypeError "parts definition must be a dictionary"), s).
Proof.
  intros H Hd. unfold __init__. rewrite H. simpl.
  destruct all_parts; try reflexivity. discriminate Hd.
Qed.

Lemma init_missing_parts d kw (s : Env C) :
  application_name_matches (application_name kw) = true ->
  dict_contains d "parts" = false ->
  __init__ C (PyDict d) kw s = (Raise (ValueError "parts definition is missing"), s).
Proof. intros H Hp. unfold __init__. rewrite H, Hp. reflexivity. Qed.

(** When one of the three checks fails the constructor raises and leaves
    the environment exactly as it found it. *)
Lemma init_check_failed all_parts kw (s : Env C) :
  application_name_matches (application_name kw) = false \/
  isinstance_dict all_parts = false \/
  (exists d, all_parts = PyDict d /\ dict_contains d "parts" = false) ->
  exists e, __init__ C all_parts kw s = (Raise e, s).
Proof.
  destruct (application_name_matches (application_name kw)) eqn:Hm.
  - intros [Hn | [Hd | (d & -> & Hp)]].
    + discriminate Hn.
    + eexists. now apply init_not_dict.
    + eexists. now apply init_missing_parts.
  - intros _. eexists. now apply init_invalid_name.
Qed.

End ConstructorChecks.

(** C3: an application name that the pattern [^[A-Za-z][0-9A-Za-z_]*$]
    does not match makes the constructor raise InvalidApplicationName, and
    the environment it leaves is the one it started from: no attribute is
    set, the world outside (directories, state) is untouched and no
    collaborator has been called. *)
Theorem invalid_application_name_is_fatal :
  forall (C : Collaborators) (all_parts : PyValue) (kw : Kwargs) (s : Env C),
    application_name_matches (application_name kw) = false ->
    __init__ C all_parts kw s =
      (Raise (InvalidApplicationName (application_name kw)), s) /\
    world (__init__ C all_parts kw s).2 = world s /\
    trace (__init__ C all_parts kw s).2 = trace s /\
    self (__init__ C all_parts kw s).2 = self s.
Proof.
  intros C all_parts kw s H.
  rewrite (init_invalid_name C all_parts kw s H). auto.
Qed.

Lemma invalid_application_name_is_fatal_witness :
  __init__ nil_collaborators foo_bar (kwargs "1bad" "cache") start =
  (Raise (InvalidApplicationName "1bad"), start).
Proof.
  exact (proj1 (invalid_application_name_is_fatal
                  nil_collaborators foo_bar (kwargs "1bad" "cache") start eq_refl)).
Defined.

(** C5: a project-wide specification without a [parts] key makes the
    constructor raise, with "parts definition is missing" when the name
    is valid and the specification is a dictionary, and the environment
    is left as it was: no part has been built and neither the sequencer
    nor the executor has been created. *)
Theorem missing_parts_key_is_fatal :
  forall (C : Collaborators) (all_parts : PyValue) (kw : Kwargs) (s : Env C),
    (forall d, all_parts = PyDict d -> dict_contains d "parts" = false) ->
    exists e,
      __init__ C all_parts kw s = (Raise e, s) /\
      (application_name_matches (application_name kw) = true ->
       isinstance_dict all_parts = true ->
       e = ValueError "parts definition is missing") /\
      forallb (fun ev => negb (is_construction ev))
        (drop (length (trace s)) (trace (__init__ C all_parts kw s).2)) = true /\
      _part_list (self (__init__ C all_parts kw s).2) = _part_list (self s) /\
      _sequencer (self (__init__ C all_parts kw s).2) = _sequencer (self s) /\
      _executor (self (__init__ C all_parts kw s).2) = _executor (self s).
Proof.
  intros C all_parts kw s Hp.
  assert (Hfail : exists e, __init__ C all_parts kw s = (Raise e, s) /\
                    (application_name_matches (application_name kw) = true ->
                     isinstance_dict all_parts = true ->
                     e = ValueError "parts definition is missing")).
  { destruct (application_name_matches (application_name kw)) eqn:Hm.
    - destruct (isinstance_dict all_parts) eqn:Hd.
      + destruct all_parts; try discriminate Hd.
        eexists. split; [apply init_missing_parts; auto | auto].
      + eexists. split; [apply init_not_dict; auto | discriminate].
    - eexists. split; [apply init_invalid_name; auto | discriminate]. }
  destruct Hfail as (e & He & Hv). exists e. rewrite He. simpl.
  rewrite drop_all. repeat split; auto.
Qed.

Lemma missing_parts_key_is_fatal_witness :
  exists e,
    __init__ nil_collaborators
      (PyDict [("foo", PyDict [("plugin", PyStr "nil")])]) (kwargs "test_app" "cache")
      start = (Raise e, start) /\
    e = ValueError "parts definition is missing".
Proof.
  destruct (missing_parts_key_is_fatal nil_collaborators
              (PyDict [("foo", PyDict [("plugin", PyStr "nil")])])
              (kwargs "test_app" "cache") start) as (e & H1 & H2 & _).
  - intros d Hd. injection Hd as <-. reflexivity.
  - exists e. split; [exact H1 | exact (H2 eq_refl eq_refl)].
Defined.

(** C10: the constructor checks the application name first, then that
    [all_parts] is a dictionary, then that it has a [parts] key; each
    failure raises with the environment untouched, and a part is built
    only when the three checks have passed. *)
Theorem constructor_check_order :
  forall (C : Collaborators) (all_parts : PyValue) (kw : Kwargs) (s : Env C),
    (application_name_matches (application_name kw) = false ->
     __init__ C all_parts kw s =
       (Raise (InvalidApplicationName (application_name kw)), s)) /\
    (application_name_matches (application_name kw) = true ->
     isinstance_dict all_parts = false ->
     __init__ C all_parts kw s =
       (Raise (TypeError "parts definition must be a dictionary"), s)) /\
    (application_name_matches (application_name kw) = true ->
     forall d, all_parts = PyDict d -> dict_contains d "parts" = false ->
     __init__ C all_parts kw s =
       (Raise (ValueError "parts definition is missing"), s)) /\
    ((exists ev, In ev (drop (length (trace s)) (trace (__init__ C all_parts kw s).2)) /\
                 is_construction ev = true) ->
     application_name_matches (application_name kw) = true /\
     exists d, all_parts = PyDict d /\ dict_contains d "parts" = true).
Proof.
  intros C all_parts kw s. repeat split.
  - apply init_invalid_name.
  - apply init_not_dict.
  - intros Hm d -> Hp. now apply init_missing_parts.
  - destruct H as (ev & Hin & _).
    destruct (application_name_matches (application_name kw)) eqn:Hm; auto.
    rewrite (init_invalid_name C all_parts kw s Hm) in Hin. simpl in Hin.
    rewrite drop_all in Hin. destruct Hin.
  - destruct H as (ev & Hin & _).
    destruct (application_name_matches (application_name kw)) eqn:Hm.
    + destruct (isinstance_dict all_parts) eqn:Hd.
      * destruct all_parts as [|b|z|n|l|d|t i]; try discriminate Hd.
        destruct (dict_contains d "parts") eqn:Hp; eauto.
        rewrite (init_missing_parts C d kw s Hm Hp) in Hin. simpl in Hin.
        rewrite drop_all in Hin. destruct Hin.
      * rewrite (init_not_dict C all_parts kw s Hm Hd) in Hin. simpl in Hin.
        rewrite drop_all in Hin. destruct Hin.
    + rewrite (init_invalid_name C all_parts kw s Hm) in Hin. simpl in Hin.
      rewrite drop_all in Hin. destruct Hin.
Qed.

Lemma constructor_check_order_witness :
  __init__ nil_collaborators (PyInt 3) (kwargs "1bad" "cache") start =
    (Raise (InvalidApplicationName "1bad"), start) /\
  __init__ nil_collaborators (PyList []) (kwargs "test_app" "cache") start =
    (Raise (TypeError "parts definition must be a dictionary"), start) /\
  __init__ nil_collaborators (PyDict []) (kwargs "test_app" "cache") start =
    (Raise (ValueError "parts definition is missing"), start) /\
  (application_name_matches "test_app" = true /\
   exists d, foo_bar = PyDict d /\ dict_contains d "parts" = true).
Proof.
  split; [| split; [| split]].
  - exact (proj1 (constructor_check_order nil_collaborators (PyInt 3)
                    (kwargs "1bad" "cache") start) eq_refl).
  - exact (proj1 (proj2 (constructor_check_order nil_collaborators (PyList [])
                           (kwargs "test_app" "cache") start)) eq_refl eq_refl).
  - exact (proj1 (proj2 (proj2 (constructor_check_order nil_collaborators (PyDict [])
                                  (kwargs "test_app" "cache") start)))
                 eq_refl [] eq_refl eq_refl).
  - apply (proj2 (proj2 (proj2 (constructor_check_order nil_collaborators foo_bar
                                  (kwargs "test_app" "cache") start)))).
    exists (EvBuildPart "foo"). split; [vm_compute; auto | reflexivity].
Defined.

(** ** Building a part *)

Section BuildPart.

Context (C : Collaborators).

Lemma after_events_twice (s : Env C) w w' evs evs' :
  after_events (after_events s w evs) w' evs' = after_events s w' (evs ++ evs').
Proof. unfold after_events. simpl. now rewrite <- app_assoc. Qed.

Lemma dict_get_missing spec key default :
  dict_lookup spec key = None -> dict_get spec key default = default.
Proof. unfold dict_get. now intros ->. Qed.

Lemma dict_get_present spec key default v :
  dict_lookup spec key = Some v -> dict_get spec key default = v.
Proof. unfold dict_get. now intros ->. Qed.

Lemma dict_lookup_remove spec key : dict_lookup (dict_remove spec key) key = None.
Proof.
  induction spec as [|[k v] spec IH]; simpl; auto.
  destruct (String.eqb k key) eqn:E; simpl; auto. now rewrite E.
Qed.

(** The lookup when the [plugin] entry is missing or falsy: the part name
    is looked up, and a [ValueError] becomes [UndefinedPlugin]. *)
Lemma plugin_lookup_defaulted name spec (s : Env C) :
  truthy (dict_get spec "plugin" (PyStr "")) = false ->
  plugin_lookup C name spec s =
  match get_plugin_class C (PyStr name) (world s) with
  | (Ok cls, w) =>
      (Ok (PyStr name, cls), after_events s w [EvGetPluginClass (PyStr name)])
  | (Raise e, w) =>
      (Raise (if is_ValueError e then UndefinedPlugin name else e),
       after_events s w [EvGetPluginClass (PyStr name)])
  end.
Proof.
  intros Hf. unfold plugin_lookup, bind, try_except, call, raise, ret, after_events.
  rewrite Hf. simpl.
  destruct (get_plugin_class C (PyStr name) (world s)) as [[cls|e] w]; simpl; auto.
  destruct (is_ValueError e); reflexivity.
Qed.

(** The lookup with a truthy [plugin] entry: that identifier is looked
    up, and a [ValueError] becomes [InvalidPlugin]. *)
Lemma plugin_lookup_explicit name spec (s : Env C) :
  truthy (dict_get spec "plugin" (PyStr "")) = true ->
  plugin_lookup C name spec s =
  let p := dict_get spec "plugin" (PyStr "") in
  match get_plugin_class C p (world s) with
  | (Ok cls, w) => (Ok (p, cls), after_events s w [EvGetPluginClass p])
  | (Raise e, w) =>
      (Raise (if is_ValueError e then InvalidPlugin p name else e),
       after_events s w [EvGetPluginClass p])
  end.
Proof.
  intros Ht. unfold plugin_lookup, bind, try_except, call, raise, ret, after_events.
  rewrite Ht. simpl.
  destruct (get_plugin_class C _ (world s)) as [[cls|e] w]; simpl; auto.
  destruct (is_ValueError e); reflexivity.
Qed.

Lemma build_part_dict name spec pd (s : Env C) :
  _build_part C name (PyDict spec) pd s =
  match plugin_lookup C name spec (after_events s (world s) [EvBuildPart name]) with
  | (Ok (plugin_name, plugin_class), s1) =>
      part_of_plugin C name spec pd plugin_name plugin_class s1
  | (Raise e, s1) => (Raise e, s1)
  end.
Proof.
  unfold _build_part, bind, log, after_events. simpl.
  destruct (plugin_lookup C name spec _) as [[[pn cls]|e] s1]; reflexivity.
Qed.

Lemma build_part_malformed name spec pd (s : Env C) :
  isinstance_dict spec = false ->
  _build_part C name spec pd s =
  (Raise (PartSpecificationError name (Message "part definition is malformed")),
   after_events s (world s) [EvBuildPart name]).
Proof.
  intros H. destruct spec; try discriminate H; reflexivity.
Qed.

(** The detail of the error for a failed validation. *)
Lemma part_of_plugin_invalid name spec pd pn cls (s : Env C) e w :
  unmarshal C cls spec (world s) = (Raise e, w) ->
  is_ValueError e = true ->
  part_of_plugin C name spec pd pn cls s =
  (Raise (PartSpecificationError name
            match e with
            | ValidationError errors => ErrorList errors
            | _ => Message (str_exc e)
            end),
   after_events s w [EvUnmarshal spec]).
Proof.
  intros Hu Hv. unfold part_of_plugin, bind, try_except, call, raise, after_events.
  rewrite Hu. destruct e; try discriminate Hv; reflexivity.
Qed.

Lemma build_part_defaulted_undefined name spec pd (s : Env C) e w :
  truthy (dict_get spec "plugin" (PyStr "")) = false ->
  get_plugin_class C (PyStr name) (world s) = (Raise e, w) ->
  is_ValueError e = true ->
  _build_part C name (PyDict spec) pd s =
  (Raise (UndefinedPlugin name),
   after_events s w [EvBuildPart name; EvGetPluginClass (PyStr name)]).
Proof.
  intros Hf Hg Hv. rewrite build_part_dict, (plugin_lookup_defaulted _ _ _ Hf).
  simpl. rewrite Hg, Hv. now rewrite after_events_twice.
Qed.

Lemma build_part_defaulted_found name spec pd (s : Env C) cls w :
  truthy (dict_get spec "plugin" (PyStr "")) = false ->
  get_plugin_class C (PyStr name) (world s) = (Ok cls, w) ->
  _build_part C name (PyDict spec) pd s =
  part_of_plugin C name spec pd (PyStr name) cls
    (after_events s w [EvBuildPart name; EvGetPluginClass (PyStr name)]).
Proof.
  intros Hf Hg. rewrite build_part_dict, (plugin_lookup_defaulted _ _ _ Hf).
  simpl. rewrite Hg. now rewrite after_events_twice.
Qed.

Lemma build_part_explicit_invalid name spec pd (s : Env C) p e w :
  dict_lookup spec "plugin" = Some p ->
  truthy p = true ->
  get_plugin_class C p (world s) = (Raise e, w) ->
  is_ValueError e = true ->
  _build_part C name (PyDict spec) pd s =
  (Raise (InvalidPlugin p name),
   after_events s w [EvBuildPart name; EvGetPluginClass p]).
Proof.
  intros Hl Ht Hg Hv.
  pose proof (dict_get_present spec "plugin" (PyStr "") p Hl) as Hp.
  rewrite build_part_dict, plugin_lookup_explicit by now rewrite Hp.
  rewrite Hp. simpl. rewrite Hg, Hv. now rewrite after_events_twice.
Qed.

End BuildPart.

(** C2: when the part's specification has no [plugin] entry the plugin
    is looked up under the part's own name and the part is built with the
    class found; when that lookup fails the error is UndefinedPlugin,
    naming the part, which is not the InvalidPlugin error that a failed
    lookup of an explicitly given identifier raises. *)
Theorem omitted_plugin_defaults_to_part_name :
  forall (C : Collaborators) (name : string) (spec : PyDictT)
         (pd : ProjectDirs C) (s : Env C),
    dict_lookup spec "plugin" = None ->
    (forall cls w,
        get_plugin_class C (PyStr name) (world s) = (Ok cls, w) ->
        _build_part C name (PyDict spec) pd s =
        part_of_plugin C name spec pd (PyStr name) cls
          (after_events s w [EvBuildPart name; EvGetPluginClass (PyStr name)])) /\
    (forall e w,
        get_plugin_class C (PyStr name) (world s) = (Raise e, w) ->
        is_ValueError e = true ->
        _build_part C name (PyDict spec) pd s =
        (Raise (UndefinedPlugin name),
         after_events s w [EvBuildPart name; EvGetPluginClass (PyStr name)])) /\
    exc_part_name (UndefinedPlugin name) = Some name /\
    (forall spec' p e w,
        dict_lookup spec' "plugin" = Some p ->
        truthy p = true ->
        get_plugin_class C p (world s) = (Raise e, w) ->
        is_ValueError e = true ->
        _build_part C name (PyDict spec') pd s =
        (Raise (InvalidPlugin p name),
         after_events s w [EvBuildPart name; EvGetPluginClass p])) /\
    (forall p n, UndefinedPlugin name <> InvalidPlugin p n).
Proof.
  intros C name spec pd s Hn.
  assert (Hf : truthy (dict_get spec "plugin" (PyStr "")) = false)
    by now rewrite dict_get_missing.
  repeat split.
  - intros cls w Hg. now apply build_part_defaulted_found.
  - intros e w Hg Hv. now apply build_part_defaulted_undefined with e.
  - intros spec' p e w Hl Ht Hg Hv. now apply build_part_explicit_invalid with e.
  - discriminate.
Qed.

Lemma omitted_plugin_defaults_to_part_name_witness :
  (_build_part nil_collaborators "nil" (PyDict [("source", PyStr ".")]) "." start).1 =
    Ok {| part_name := "nil"; part_plugin := "nil";
          part_properties := []; part_after := [] |} /\
  (_build_part nil_collaborators "foo" (PyDict [("source", PyStr ".")]) "." start).1 =
    Raise (UndefinedPlugin "foo") /\
  (_build_part nil_collaborators "foo" (PyDict [("plugin", PyStr "zzz")]) "." start).1 =
    Raise (InvalidPlugin (PyStr "zzz") "foo").
Proof.
  split; [| split].
  - rewrite (proj1 (omitted_plugin_defaults_to_part_name nil_collaborators "nil"
                      [("source", PyStr ".")] "." start eq_refl)
                   "nil" empty_world eq_refl).
    reflexivity.
  - rewrite (proj1 (proj2 (omitted_plugin_defaults_to_part_name nil_collaborators "foo"
                             [("source", PyStr ".")] "." start eq_refl))
                   (ValueError "plugin not registered") empty_world eq_refl eq_refl).
    reflexivity.
  - rewrite (proj1 (proj2 (proj2 (proj2
               (omitted_plugin_defaults_to_part_name nil_collaborators "foo"
                  [("source", PyStr ".")] "." start eq_refl))))
               [("plugin", PyStr "zzz")] (PyStr "zzz")
               (ValueError "plugin not registered") empty_world
               eq_refl eq_refl eq_refl eq_refl).
    reflexivity.
Defined.

(** C4: a part whose specification is not a mapping, or whose properties
    the plugin's schema rejects, fails with PartSpecificationError for that
    part: with the message "part definition is malformed" in the first
    case, with the list of validation errors or the text of the error in
    the second. *)
Theorem invalid_specification_is_reported :
  forall (C : Collaborators) (name : string) (pd : ProjectDirs C) (s : Env C),
    (forall spec,
        isinstance_dict spec = false ->
        _build_part C name spec pd s =
        (Raise (PartSpecificationError name (Message "part definition is malformed")),
         after_events s (world s) [EvBuildPart name])) /\
    (forall spec pn cls s1 e w,
        plugin_lookup C name spec (after_events s (world s) [EvBuildPart name]) =
          (Ok (pn, cls), s1) ->
        unmarshal C cls spec (world s1) = (Raise e, w) ->
        is_ValueError e = true ->
        _build_part C name (PyDict spec) pd s =
        (Raise (PartSpecificationError name
                  match e with
                  | ValidationError errors => ErrorList errors
                  | _ => Message (str_exc e)
                  end),
         after_events s1 w [EvUnmarshal spec])) /\
    (forall detail, exc_part_name (PartSpecificationError name detail) = Some name).
Proof.
  intros C name pd s. repeat split.
  - intros spec H. now apply build_part_malformed.
  - intros spec pn cls s1 e w Hl Hu Hv.
    rewrite build_part_dict, Hl. now apply part_of_plugin_invalid.
Qed.

Lemma invalid_specification_is_reported_witness :
  (_build_part strict_collaborators "foo" (PyStr "nil") "." strict_start).1 =
    Raise (PartSpecificationError "foo" (Message "part definition is malformed")) /\
  (_build_part strict_collaborators "foo" (PyDict [("plugin", PyStr "strict")]) "."
     strict_start).1 =
    Raise (PartSpecificationError "foo"
             (ErrorList [PyDict [("msg", PyStr "extra field")]])) /\
  (_build_part strict_collaborators "foo" (PyDict [("plugin", PyStr "picky")]) "."
     strict_start).1 =
    Raise (PartSpecificationError "foo" (Message "bad value")).
Proof.
  split; [| split].
  - rewrite (proj1 (invalid_specification_is_reported strict_collaborators "foo" "."
                      strict_start) (PyStr "nil") eq_refl).
    reflexivity.
  - rewrite (proj1 (proj2 (invalid_specification_is_reported strict_collaborators
                             "foo" "." strict_start))
                   [("plugin", PyStr "strict")] (PyStr "strict") "strict"
                   (after_events strict_start empty_world
                      [EvBuildPart "foo"; EvGetPluginClass (PyStr "strict")])
                   (ValidationError [PyDict [("msg", PyStr "extra field")]])
                   empty_world eq_refl eq_refl eq_refl).
    reflexivity.
  - rewrite (proj1 (proj2 (invalid_specification_is_reported strict_collaborators
                             "foo" "." strict_start))
                   [("plugin", PyStr "picky")] (PyStr "picky") "picky"
                   (after_events strict_start empty_world
                      [EvBuildPart "foo"; EvGetPluginClass (PyStr "picky")])
                   (ValueError "bad value")
                   empty_world eq_refl eq_refl eq_refl).
    reflexivity.
Defined.

(** C9: a [plugin] entry with a falsy value (the empty string, None) is
    treated as a missing entry: the lookup is the one made for the
    specification without the entry, under the part's own name, and when
    it fails the error is UndefinedPlugin, not InvalidPlugin. *)
Theorem falsy_plugin_is_omitted_plugin :
  forall (C : Collaborators) (name : string) (spec : PyDictT) (v : PyValue)
         (pd : ProjectDirs C) (s : Env C),
    dict_lookup spec "plugin" = Some v ->
    truthy v = false ->
    plugin_lookup C name spec s = plugin_lookup C name (dict_remove spec "plugin") s /\
    (forall cls w,
        get_plugin_class C (PyStr name) (world s) = (Ok cls, w) ->
        plugin_lookup C name spec s =
        (Ok (PyStr name, cls), after_events s w [EvGetPluginClass (PyStr name)])) /\
    (forall e w,
        get_plugin_class C (PyStr name) (world s) = (Raise e, w) ->
        is_ValueError e = true ->
        _build_part C name (PyDict spec) pd s =
          (Raise (UndefinedPlugin name),
           after_events s w [EvBuildPart name; EvGetPluginClass (PyStr name)]) /\
        forall p n, (_build_part C name (PyDict spec) pd s).1 <> Raise (InvalidPlugin p n)).
Proof.
  intros C name spec v pd s Hl Hf.
  assert (H1 : truthy (dict_get spec "plugin" (PyStr "")) = false)
    by now rewrite (dict_get_present _ _ _ _ Hl).
  assert (H2 : truthy (dict_get (dict_remove spec "plugin") "plugin" (PyStr "")) = false)
    by now rewrite dict_get_missing by apply dict_lookup_remove.
  split; [| split].
  - now rewrite !plugin_lookup_defaulted.
  - intros cls w Hg. rewrite plugin_lookup_defaulted by assumption. now rewrite Hg.
  - intros e w Hg Hv.
    rewrite (build_part_defaulted_undefined C name spec pd s e w H1 Hg Hv).
    split; [reflexivity | discriminate].
Qed.

Lemma falsy_plugin_is_omitted_plugin_witness :
  (_build_part nil_collaborators "foo" (PyDict [("plugin", PyStr "")]) "." start).1 =
    Raise (UndefinedPlugin "foo") /\
  (_build_part nil_collaborators "foo" (PyDict [("plugin", PyNone)]) "." start).1 =
    Raise (UndefinedPlugin "foo") /\
  (plugin_lookup nil_collaborators "nil" [("plugin", PyNone)] start).1 =
    Ok (PyStr "nil", "nil").
Proof.
  split; [| split].
  - rewrite (proj1 (proj2 (proj2 (falsy_plugin_is_omitted_plugin nil_collaborators "foo"
               [("plugin", PyStr "")] (PyStr "") "." start eq_refl eq_refl))
               (ValueError "plugin not registered") empty_world eq_refl eq_refl)).
    reflexivity.
  - rewrite (proj1 (proj2 (proj2 (falsy_plugin_is_omitted_plugin nil_collaborators "foo"
               [("plugin", PyNone)] PyNone "." start eq_refl eq_refl))
               (ValueError "plugin not registered") empty_world eq_refl eq_refl)).
    reflexivity.
  - rewrite (proj1 (proj2 (falsy_plugin_is_omitted_plugin nil_collaborators "nil"
               [("plugin", PyNone)] PyNone "." start eq_refl eq_refl))
               "nil" empty_world eq_refl).
    reflexivity.
Defined.

(** ** What an operation does to the object and to the trace *)

Section Frames.

Context (C : Collaborators).

Lemma keeps_self_ret {A} (a : A) : keeps_self (@ret C A a).
Proof. intros s. reflexivity. Qed.

Lemma keeps_self_raise {A} e : keeps_self (@raise C A e).
Proof. intros s. reflexivity. Qed.

Lemma keeps_self_log ev : keeps_self (@log C ev).
Proof. intros s. reflexivity. Qed.

Lemma keeps_self_call {A} ev (f : World C -> Result A * World C) :
  keeps_self (call ev f).
Proof. intros s. unfold call. now destruct (f (world s)). Qed.

Lemma keeps_self_getattr {A} name (field : LifecycleManager C -> option A) :
  keeps_self (getattr name field).
Proof. intros s. unfold getattr. now destruct (field (self s)). Qed.

Lemma keeps_self_bind {A B} (m : M C A) (k : A -> M C B) :
  keeps_self m -> (forall a, keeps_self (k a)) -> keeps_self (bind m k).
Proof.
  intros Hm Hk s. unfold bind. specialize (Hm s).
  destruct (m s) as [[a|e] s1]; simpl in *; auto.
  now rewrite Hk.
Qed.

Lemma keeps_self_try_except {A} (m : M C A) handler :
  keeps_self m ->
  (forall e h, handler e = Some h -> keeps_self h) ->
  keeps_self (try_except m handler).
Proof.
  intros Hm Hh s. unfold try_except. specialize (Hm s).
  destruct (m s) as [[a|e] s1]; simpl in *; auto.
  destruct (handler e) as [h|] eqn:E; simpl; auto.
  now rewrite (Hh e h E).
Qed.

Lemma emits_ret ok {A} (a : A) : emits ok (@ret C A a).
Proof. intros s. exists []. simpl. now rewrite app_nil_r. Qed.

Lemma emits_raise ok {A} e : emits ok (@raise C A e).
Proof. intros s. exists []. simpl. now rewrite app_nil_r. Qed.


Lemma emits_log (ok : Event -> bool) ev : ok ev = true -> emits ok (@log C ev).
Proof. intros H s. exists [ev]. simpl. now rewrite H. Qed.

Lemma emits_call (ok : Event -> bool) {A} ev (f : World C -> Result A * World C) :
  ok ev = true -> emits ok (call ev f).
Proof.
  intros H s. exists [ev]. unfold call.
  destruct (f (world s)); simpl. now rewrite H.
Qed.

Lemma emits_bind ok {A B} (m : M C A) (k : A -> M C B) :
  emits ok m -> (forall a, emits ok (k a)) -> emits ok (bind m k).
Proof.
  intros Hm Hk s. unfold bind. destruct (Hm s) as (evs & Ht & Hok).
  destruct (m s) as [[a|e] s1]; simpl in *.
  - destruct (Hk a s1) as (evs' & Ht' & Hok').
    exists (evs ++ evs'). rewrite Ht', Ht, <- app_assoc. split; auto.
    rewrite forallb_app, Hok, Hok'. reflexivity.
  - exists evs. auto.
Qed.

Lemma emits_try_except ok {A} (m : M C A) handler :
  emits ok m ->
  (forall e h, handler e = Some h -> emits ok h) ->
  emits ok (try_except m handler).
Proof.
  intros Hm Hh s. unfold try_except. destruct (Hm s) as (evs & Ht & Hok).
  destruct (m s) as [[a|e] s1]; simpl in *.
  - exists evs. auto.
  - destruct (handler e) as [h|] eqn:E; simpl.
    + destruct (Hh e h E s1) as (evs' & Ht' & Hok').
      exists (evs ++ evs'). rewrite Ht', Ht, <- app_assoc. split; auto.
      rewrite forallb_app, Hok, Hok'. reflexivity.
    + exists evs. auto.
Qed.

(** Building parts sets no attribute and emits construction events only. *)
Lemma build_part_keeps_self name spec pd : keeps_self (_build_part C name spec pd).
Proof.
  unfold _build_part. apply keeps_self_bind; [apply keeps_self_log | intros _].
  destruct spec; try apply keeps_self_raise.
  apply keeps_self_bind.
  - unfold plugin_lookup. apply keeps_self_bind; [| intros; apply keeps_self_ret].
    apply keeps_self_try_except; [apply keeps_self_call |].
    intros e h. destruct (is_ValueError e); [| discriminate].
    intros [= <-]. destruct (negb _); apply keeps_self_raise.
  - intros [pn cls]. unfold part_of_plugin.
    apply keeps_self_bind.
    + apply keeps_self_try_except; [apply keeps_self_call |].
      intros e h H.
      destruct e; simpl in H; try discriminate H;
        injection H as <-; apply keeps_self_raise.
    + intros props. apply keeps_self_bind; intros; apply keeps_self_call.
Qed.

Lemma build_part_emits name spec pd : emits is_construction (_build_part C name spec pd).
Proof.
  unfold _build_part. apply emits_bind; [now apply emits_log | intros _].
  destruct spec; try apply emits_raise.
  apply emits_bind.
  - unfold plugin_lookup. apply emits_bind; [| intros; apply emits_ret].
    apply emits_try_except; [now apply emits_call |].
    intros e h. destruct (is_ValueError e); [| discriminate].
    intros [= <-]. destruct (negb _); apply emits_raise.
  - intros [pn cls]. unfold part_of_plugin.
    apply emits_bind.
    + apply emits_try_except; [now apply emits_call |].
      intros e h H.
      destruct e; simpl in H; try discriminate H;
        injection H as <-; apply emits_raise.
    + intros props. apply emits_bind; intros; now apply emits_call.
Qed.

Lemma build_part_list_keeps_self l pd acc : keeps_self (build_part_list C l pd acc).
Proof.
  revert acc. induction l as [|[name spec] l IH]; intros acc; simpl.
  - apply keeps_self_ret.
  - apply keeps_self_bind; [apply build_part_keeps_self | intros; apply IH].
Qed.

Lemma build_part_list_emits l pd acc :
  emits is_construction (build_part_list C l pd acc).
Proof.
  revert acc. induction l as [|[name spec] l IH]; intros acc; simpl.
  - apply emits_ret.
  - apply emits_bind; [apply build_part_emits | intros; apply IH].
Qed.

(** The public operations set no attribute. *)
Lemma project_info_keeps_self : keeps_self (project_info C).
Proof. apply keeps_self_getattr. Qed.

Lemma clean_keeps_self step part_names : keeps_self (clean C step part_names).
Proof.
  unfold clean. apply keeps_self_bind; [apply keeps_self_getattr |].
  intros; apply keeps_self_call.
Qed.

Lemma refresh_packages_list_keeps_self system :
  keeps_self (refresh_packages_list C system).
Proof.
  unfold refresh_packages_list.
  repeat (apply keeps_self_bind; [apply keeps_self_getattr | intros]).
  apply keeps_self_bind; [apply keeps_self_call | intros].
  destruct (default false system); [apply keeps_self_call | apply keeps_self_ret].
Qed.

Lemma plan_keeps_self target part_names : keeps_self (plan C target part_names).
Proof.
  unfold plan. apply keeps_self_bind; [apply keeps_self_getattr | intros].
  apply keeps_self_bind; [apply keeps_self_call | intros; apply keeps_self_ret].
Qed.

Lemma reload_state_keeps_self : keeps_self (reload_state C).
Proof.
  unfold reload_state. apply keeps_self_bind; [apply keeps_self_getattr |].
  intros; apply keeps_self_call.
Qed.

Lemma action_executor_keeps_self : keeps_self (action_executor C).
Proof.
  unfold action_executor. apply keeps_self_bind; [apply keeps_self_getattr |].
  intros; apply keeps_self_call.
Qed.





End Frames.

(** ** The constructed manager *)

Section Constructed.

Context (C : Collaborators).

(** A successful construction: directories and project information are
    created first, in this order, then the parts, then the sequencer and
    the executor; all six attributes are set. *)
Lemma init_ok all_parts kw (s s' : Env C) :
  __init__ C all_parts kw s = (Ok tt, s') ->
  exists pd w0 info w1 evs,
    ProjectDirs_new C (work_dir kw) (world s) = (Ok pd, w0) /\
    ProjectInfo_new C (application_name kw) (Path (cache_dir kw)) (arch kw) (base kw)
      (parallel_build_count kw) pd (custom_args kw) w0 = (Ok info, w1) /\
    _project_info (self s') = Some info /\
    _target_arch (self s') = Some (ProjectInfo_target_arch C info) /\
    _application_name (self s') = Some (application_name kw) /\
    is_Some (_part_list (self s')) /\
    is_Some (_sequencer (self s')) /\
    is_Some (_executor (self s')) /\
    trace s' =
      trace s ++
      [EvProjectDirs (work_dir kw);
       EvProjectInfo (application_name kw) (Path (cache_dir kw))] ++
      evs ++ [EvSequencer; EvExecutor] /\
    forallb is_construction evs = true.
Proof.
  unfold __init__.
  destruct (application_name_matches (application_name kw)); simpl; [| discriminate].
  destruct all_parts as [|b|z|n|l|d|t i]; try discriminate.
  destruct (dict_contains d "parts"); simpl; [| discriminate].
  unfold bind at 1. unfold call at 1.
  destruct (ProjectDirs_new C (work_dir kw) (world s)) as [[pd|e] w0] eqn:Hpd;
    [| discriminate].
  unfold bind at 1. unfold call at 1. simpl.
  destruct (ProjectInfo_new C _ _ _ _ _ pd _ w0) as [[info|e] w1] eqn:Hpi;
    [| discriminate].
  unfold bind at 1. unfold items.
  destruct (dict_get d "parts" (PyDict [])) as [|b|z|n|l|parts|t i]; try discriminate.
  unfold ret at 1.
  unfold bind at 1.
  match goal with |- context [build_part_list C parts pd [] ?s2] =>
    pose proof (build_part_list_keeps_self C parts pd [] s2) as Hself;
    destruct (build_part_list_emits C parts pd [] s2) as (evs & Htr & Hok);
    destruct (build_part_list C parts pd [] s2) as [[pl|e] s3]
  end; [| discriminate].
  simpl in Hself, Htr.
  unfold bind, setattr, getattr, call. simpl.
  destruct (Sequencer_new C pl info (world s3)) as [[sq|e] w4]; simpl; [| discriminate].
  destruct (Executor_new C pl info (extra_build_packages kw) w4) as [[ex|e] w5];
    simpl; [| discriminate].
  intros [= <-]. simpl.
  exists pd, w0, info, w1, evs. rewrite Htr.
  repeat split; eauto.
  rewrite <- !app_assoc. reflexivity.
Qed.

Lemma construction_is_not_project_info evs :
  forallb is_construction evs = true -> List.filter is_project_info evs = [].
Proof.
  induction evs as [|ev evs IH]; simpl; auto.
  intros [Hev Hrest]%andb_prop.
  destruct ev; simpl in *; try discriminate Hev; auto.
Qed.

Lemma run_operation_keeps_self (s : Env C) op : self (run_operation C s op) = self s.
Proof.
  destruct op; simpl.
  - apply project_info_keeps_self.
  - apply clean_keeps_self.
  - apply refresh_packages_list_keeps_self.
  - apply plan_keeps_self.
  - apply reload_state_keeps_self.
  - apply action_executor_keeps_self.
Qed.

Lemma run_operations_keeps_self ops (s : Env C) : self (run_operations C s ops) = self s.
Proof.
  revert s. induction ops as [|op ops IH]; intros s; simpl; auto.
  unfold run_operations in *. simpl. rewrite IH. apply run_operation_keeps_self.
Qed.

Lemma ok_unit_eta (r : Result unit * Env C) : is_ok r.1 = true -> r = (Ok tt, r.2).
Proof. destruct r as [[[]|e] s]; simpl; [reflexivity | discriminate]. Qed.

Lemma new_events_app (s s' : Env C) evs :
  trace s' = trace s ++ evs -> new_events s s' = evs.
Proof. unfold new_events. intros ->. now rewrite drop_app_length. Qed.

End Constructed.

(** The scenario's manager is the result of a successful construction. *)
Lemma foo_bar_manager_built :
  __init__ nil_collaborators foo_bar (kwargs "test_app" "cache")
    (before_init nil_collaborators empty_world) = (Ok tt, foo_bar_manager).
Proof.
  refine (ok_unit_eta nil_collaborators
            (__init__ nil_collaborators foo_bar (kwargs "test_app" "cache") start) _).
  vm_compute. reflexivity.
Defined.

(** C6: the constructor builds the project information once and stores
    it; no public operation, nor any sequence of them, changes the stored
    value, and the [project_info] property returns it. *)
Theorem project_info_is_built_once_and_kept :
  forall (C : Collaborators),
    (forall all_parts kw w s',
        __init__ C all_parts kw (before_init C w) = (Ok tt, s') ->
        exists info,
          _project_info (self s') = Some info /\
          length (List.filter is_project_info (trace s')) = 1%nat /\
          forall ops,
            _project_info (self (run_operations C s' ops)) = Some info /\
            project_info C (run_operations C s' ops) =
              (Ok info, run_operations C s' ops)) /\
    (forall s op,
        _project_info (self (run_operation C s op)) = _project_info (self s)) /\
    (forall s info,
        _project_info (self s) = Some info -> project_info C s = (Ok info, s)).
Proof.
  intros C.
  assert (Hget : forall (s : Env C) info,
             _project_info (self s) = Some info -> project_info C s = (Ok info, s)).
  { intros s info H. unfold project_info, getattr. now rewrite H. }
  split; [| split]; auto.
  - intros all_parts kw w s' Hinit.
    destruct (init_ok C _ _ _ _ Hinit)
      as (pd & w0 & info & w1 & evs & _ & _ & Hinfo & _ & _ & _ & _ & _ & Htr & Hok).
    exists info. split; [exact Hinfo | split].
    + rewrite Htr. simpl. rewrite List.filter_app.
      rewrite (construction_is_not_project_info evs Hok). reflexivity.
    + intros ops.
      assert (Hk : _project_info (self (run_operations C s' ops)) = Some info)
        by now rewrite run_operations_keeps_self.
      split; auto.
  - intros s op. now rewrite run_operation_keeps_self.
Qed.

Lemma project_info_is_built_once_and_kept_witness :
  exists info,
    _project_info (self foo_bar_manager) = Some info /\
    project_info nil_collaborators
      (run_operations nil_collaborators foo_bar_manager
         [OpPlan STAGE None; OpClean None None; OpRefreshPackagesList (Some true);
          OpReloadState; OpActionExecutor]) =
    (Ok info,
     run_operations nil_collaborators foo_bar_manager
       [OpPlan STAGE None; OpClean None None; OpRefreshPackagesList (Some true);
        OpReloadState; OpActionExecutor]) /\
    project_info nil_collaborators foo_bar_manager = (Ok info, foo_bar_manager).
Proof.
  destruct (proj1 (project_info_is_built_once_and_kept nil_collaborators)
              foo_bar (kwargs "test_app" "cache") empty_world foo_bar_manager
              foo_bar_manager_built)
    as (info & Hinfo & _ & Hops).
  exists info. split; [exact Hinfo | split].
  - exact (proj2 (Hops [OpPlan STAGE None; OpClean None None;
                        OpRefreshPackagesList (Some true);
                        OpReloadState; OpActionExecutor])).
  - exact (proj2 (proj2 (project_info_is_built_once_and_kept nil_collaborators))
                 foo_bar_manager info Hinfo).
Defined.

(** C7: [clean] without a step is [clean] with step PULL: the two calls
    are the same computation, which asks the executor to clean from PULL
    on for the given part names. *)
Theorem clean_defaults_to_pull :
  forall (C : Collaborators) (part_names : option (list string)) (s : Env C),
    clean C None part_names s = clean C (Some PULL) part_names s /\
    clean C None part_names s =
      match _executor (self s) with
      | Some exe =>
          ((Executor_clean C exe PULL part_names (world s)).1,
           after_events s (Executor_clean C exe PULL part_names (world s)).2
             [EvExecutorClean PULL part_names])
      | None => (Raise (AttributeError "_executor"), s)
      end.
Proof.
  intros C part_names s. split; [reflexivity |].
  unfold clean, bind, getattr, call, after_events. simpl.
  destruct (_executor (self s)) as [exe|]; [| reflexivity].
  now destruct (Executor_clean C exe PULL part_names (world s)).
Qed.

(** ** The state store of the specification *)

Section StateStoreFacts.

Lemma markOutdated_absent (store : StateStore) (n : string) (s : Step) (k : string * Step) :
  store !! k = None -> markOutdated store n s !! k = None.
Proof.
  intros Hk. unfold markOutdated.
  destruct (store !! (n, s)) as [r|] eqn:E; [| exact Hk].
  destruct (decide (k = (n, s))) as [->|Hne].
  - rewrite Hk in E. discriminate.
  - now rewrite lookup_insert_ne.
Qed.

Lemma erase_steps_absent (store : StateStore) (n : string) (steps : list Step)
    (k : string * Step) :
  store !! k = None -> foldl (fun st s => erase st n s) store steps !! k = None.
Proof.
  revert store. induction steps as [|s steps IH]; intros store Hk; simpl; auto.
  apply IH. unfold erase. apply lookup_delete_None. now right.
Qed.

Lemma erase_steps_erased (store : StateStore) (n : string) (steps : list Step)
    (s : Step) :
  In s steps -> foldl (fun st s' => erase st n s') store steps !! (n, s) = None.
Proof.
  revert store. induction steps as [|s' steps IH]; intros store; simpl; [tauto |].
  intros [-> | Hin].
  - apply erase_steps_absent. unfold erase. apply lookup_delete_None. now left.
  - now apply IH.
Qed.

Lemma erase_from_absent (names : list string) (initial : Step) (store : StateStore)
    (k : string * Step) :
  store !! k = None -> erase_from names initial store !! k = None.
Proof.
  unfold erase_from. revert store.
  induction names as [|n names IH]; intros store Hk; simpl; auto.
  apply IH. now apply erase_steps_absent.
Qed.

Lemma erase_from_erased (names : list string) (initial : Step) (store : StateStore)
    (n : string) (s : Step) :
  In n names -> In s (steps_from initial) ->
  erase_from names initial store !! (n, s) = None.
Proof.
  unfold erase_from. revert store.
  induction names as [|n' names IH]; intros store; simpl; [tauto |].
  intros [-> | Hin] Hs.
  - apply (erase_from_absent names initial). now apply erase_steps_erased.
  - now apply IH.
Qed.

Lemma outdate_others_absent (others : list string) (initial : Step)
    (store : StateStore) (k : string * Step) :
  store !! k = None -> outdate_others others initial store !! k = None.
Proof.
  unfold outdate_others. revert store.
  induction others as [|n others IH]; intros store Hk; simpl; auto.
  apply IH. clear IH.
  generalize (List.filter shared_step (steps_from initial)). intros steps.
  revert store Hk. induction steps as [|s steps IHs]; intros store Hk; simpl; auto.
  apply IHs. now apply markOutdated_absent.
Qed.

Lemma steps_from_PULL s : In s (steps_from PULL).
Proof. destruct s; vm_compute; tauto. Qed.

(** After [clean] from PULL no step record of a selected part is left,
    in memory or on durable storage: the selected parts are fully reset. *)
Lemma clean_from_PULL_is_full_reset (exe : SpecExecutor)
    (part_names : option (list string)) (selected : list string) (w : SpecWorld) :
  resolve_parts (exe_parts exe) part_names = Ok selected ->
  forall n s,
    In n selected ->
    memory (executor_clean exe PULL part_names w).2 !! (n, s) = None /\
    disk (executor_clean exe PULL part_names w).2 !! (n, s) = None.
Proof.
  intros Hr n s Hn. unfold executor_clean. rewrite Hr. simpl.
  split; apply outdate_others_absent, erase_from_erased; auto using steps_from_PULL.
Qed.

(** Planning, cleaning and reloading leave the package lists alone. *)
Lemma sequencer_plan_keeps_package_lists (P : Plugins) seq target part_names w :
  stage_packages_list (sequencer_plan P seq target part_names w).2 =
    stage_packages_list w /\
  build_packages_list (sequencer_plan P seq target part_names w).2 =
    build_packages_list w.
Proof.
  unfold sequencer_plan.
  destruct (resolve_parts _ _); simpl; auto.
  destruct (topologicalOrder _); simpl; auto.
Qed.

Lemma executor_clean_keeps_package_lists exe initial part_names w :
  stage_packages_list (executor_clean exe initial part_names w).2 =
    stage_packages_list w /\
  build_packages_list (executor_clean exe initial part_names w).2 =
    build_packages_list w.
Proof. unfold executor_clean. destruct (resolve_parts _ _); simpl; auto. Qed.

End StateStoreFacts.

(** ** Refreshing the package lists *)

Section Refresh.

Context (C : Collaborators).







End Refresh.




(** ** More on building a part *)

Section BuildPartRuns.

Context (C : Collaborators).

(** The lookup in one equation: the identifier looked up is the [plugin]
    entry when it is truthy and the part name otherwise. *)
Lemma plugin_lookup_run name spec (s : Env C) :
  plugin_lookup C name spec s =
  let p := dict_get spec "plugin" (PyStr "") in
  let pn := if truthy p then p else PyStr name in
  match get_plugin_class C pn (world s) with
  | (Ok cls, w) => (Ok (pn, cls), after_events s w [EvGetPluginClass pn])
  | (Raise e, w) =>
      (Raise (if is_ValueError e
              then (if truthy p then InvalidPlugin pn name else UndefinedPlugin name)
              else e),
       after_events s w [EvGetPluginClass pn])
  end.
Proof.
  simpl. destruct (truthy (dict_get spec "plugin" (PyStr ""))) eqn:Ht.
  - now rewrite plugin_lookup_explicit.
  - now rewrite plugin_lookup_defaulted.
Qed.

Lemma part_of_plugin_run name spec pd pn cls (s : Env C) :
  part_of_plugin C name spec pd pn cls s =
  match unmarshal C cls spec (world s) with
  | (Raise e, w2) =>
      (Raise (if is_ValueError e
              then PartSpecificationError name
                     match e with
                     | ValidationError errors => ErrorList errors
                     | _ => Message (str_exc e)
                     end
              else e),
       after_events s w2 [EvUnmarshal spec])
  | (Ok props, w2) =>
      match strip_plugin_properties C spec pn w2 with
      | (Raise e, w3) =>
          (Raise e, after_events s w3 [EvUnmarshal spec; EvStripPluginProperties spec pn])
      | (Ok spec', w3) =>
          ((Part_new C name spec' pd props w3).1,
           after_events s (Part_new C name spec' pd props w3).2
             [EvUnmarshal spec; EvStripPluginProperties spec pn; EvPart name])
      end
  end.
Proof.
  unfold part_of_plugin, bind, try_except, call, raise, after_events. simpl.
  destruct (unmarshal C cls spec (world s)) as [[props|e] w2]; simpl.
  - destruct (strip_plugin_properties C spec pn w2) as [[spec'|e] w3]; simpl.
    + destruct (Part_new C name spec' pd props w3); simpl.
      now rewrite <- !app_assoc.
    + now rewrite <- !app_assoc.
  - destruct e; reflexivity.
Qed.

Lemma build_part_lookup_found name spec pd (s : Env C) cls w1 :
  get_plugin_class C
    (if truthy (dict_get spec "plugin" (PyStr ""))
     then dict_get spec "plugin" (PyStr "") else PyStr name) (world s) = (Ok cls, w1) ->
  _build_part C name (PyDict spec) pd s =
  part_of_plugin C name spec pd
    (if truthy (dict_get spec "plugin" (PyStr ""))
     then dict_get spec "plugin" (PyStr "") else PyStr name) cls
    (after_events s w1
       [EvBuildPart name;
        EvGetPluginClass
          (if truthy (dict_get spec "plugin" (PyStr ""))
           then dict_get spec "plugin" (PyStr "") else PyStr name)]).
Proof.
  intros Hg. rewrite build_part_dict, plugin_lookup_run. cbv zeta.
  change (world (after_events s (world s) [EvBuildPart name])) with (world s).
  rewrite Hg. now rewrite after_events_twice.
Qed.

Lemma build_part_lookup_raises name spec pd (s : Env C) e w1 :
  get_plugin_class C
    (if truthy (dict_get spec "plugin" (PyStr ""))
     then dict_get spec "plugin" (PyStr "") else PyStr name) (world s) = (Raise e, w1) ->
  is_ValueError e = false ->
  _build_part C name (PyDict spec) pd s =
  (Raise e,
   after_events s w1
     [EvBuildPart name;
      EvGetPluginClass
        (if truthy (dict_get spec "plugin" (PyStr ""))
         then dict_get spec "plugin" (PyStr "") else PyStr name)]).
Proof.
  intros Hg Hv. rewrite build_part_dict, plugin_lookup_run. cbv zeta.
  change (world (after_events s (world s) [EvBuildPart name])) with (world s).
  rewrite Hg, Hv. now rewrite after_events_twice.
Qed.

End BuildPartRuns.

(** X1: when the four collaborators succeed, [_build_part] returns the
    part made from the name, the stripped specification, the project
    directories and the unmarshalled properties.  The plugin looked up
    is the [plugin] entry when truthy and the part name otherwise; the
    validation sees the specification before it is stripped; the calls
    are made in this order, each in the world the previous one left. *)
Theorem build_part_success :
  forall (C : Collaborators) (name : string) (spec : PyDictT) (pd : ProjectDirs C)
         (s : Env C) cls w1 props w2 spec' w3 part w4,
    let p := dict_get spec "plugin" (PyStr "") in
    let pn := if truthy p then p else PyStr name in
    get_plugin_class C pn (world s) = (Ok cls, w1) ->
    unmarshal C cls spec w1 = (Ok props, w2) ->
    strip_plugin_properties C spec pn w2 = (Ok spec', w3) ->
    Part_new C name spec' pd props w3 = (Ok part, w4) ->
    _build_part C name (PyDict spec) pd s =
    (Ok part,
     after_events s w4
       [EvBuildPart name; EvGetPluginClass pn; EvUnmarshal spec;
        EvStripPluginProperties spec pn; EvPart name]).
Proof.
  intros C name spec pd s cls w1 props w2 spec' w3 part w4 p pn Hg Hu Hs Hp.
  subst p pn. rewrite (build_part_lookup_found C _ _ _ _ _ _ Hg), part_of_plugin_run.
  change (world (after_events s w1 ?evs)) with w1.
  rewrite Hu, Hs, Hp. simpl. now rewrite !after_events_twice.
Qed.

Lemma build_part_success_witness :
  (_build_part stub_collaborators "foo"
     (PyDict [("plugin", PyStr "dump"); ("dump-mode", PyStr "x"); ("source", PyStr ".")])
     "." stub_start).1 =
  Ok ("foo", [("plugin", PyStr "dump"); ("source", PyStr ".")],
      [("dump-mode", PyStr "x")]).
Proof.
  rewrite (build_part_success stub_collaborators "foo"
             [("plugin", PyStr "dump"); ("dump-mode", PyStr "x"); ("source", PyStr ".")]
             "." stub_start
             "dump" ["get_plugin_class"]
             [("dump-mode", PyStr "x")] ["get_plugin_class"; "unmarshal"]
             [("plugin", PyStr "dump"); ("source", PyStr ".")]
             ["get_plugin_class"; "unmarshal"; "strip_plugin_properties"]
             ("foo", [("plugin", PyStr "dump"); ("source", PyStr ".")],
              [("dump-mode", PyStr "x")])
             ["get_plugin_class"; "unmarshal"; "strip_plugin_properties"; "Part"]
             eq_refl eq_refl eq_refl eq_refl).
  reflexivity.
Defined.

(** X2: an exception of the plugin lookup that is not a [ValueError]
    leaves [_build_part] unchanged, whether the plugin was given or
    defaulted, and nothing is called after the lookup. *)
Theorem build_part_lookup_error_propagates :
  forall (C : Collaborators) (name : string) (spec : PyDictT) (pd : ProjectDirs C)
         (s : Env C) e w1,
    let p := dict_get spec "plugin" (PyStr "") in
    let pn := if truthy p then p else PyStr name in
    get_plugin_class C pn (world s) = (Raise e, w1) ->
    is_ValueError e = false ->
    _build_part C name (PyDict spec) pd s =
    (Raise e, after_events s w1 [EvBuildPart name; EvGetPluginClass pn]).
Proof.
  intros C name spec pd s e w1 p pn Hg Hv.
  subst p pn. now apply build_part_lookup_raises.
Qed.

Lemma build_part_lookup_error_propagates_witness :
  _build_part stub_collaborators "foo" (PyDict [("plugin", PyList [PyStr "nil"])])
    "." stub_start =
  (Raise (TypeError "unhashable type"),
   after_events stub_start ["get_plugin_class"]
     [EvBuildPart "foo"; EvGetPluginClass (PyList [PyStr "nil"])]).
Proof.
  exact (build_part_lookup_error_propagates stub_collaborators "foo"
           [("plugin", PyList [PyStr "nil"])] "." stub_start
           (TypeError "unhashable type") ["get_plugin_class"] eq_refl eq_refl).
Defined.

(** X3: only the validation is guarded.  An exception of [unmarshal] that
    is not a [ValueError], and any exception of [strip_plugin_properties]
    or of the [Part] constructor, a [ValueError] included, leaves
    [_build_part] as it was raised, not as a PartSpecificationError. *)
Theorem build_part_late_errors_propagate :
  forall (C : Collaborators) (name : string) (spec : PyDictT) (pd : ProjectDirs C)
         (s : Env C) cls w1,
    let p := dict_get spec "plugin" (PyStr "") in
    let pn := if truthy p then p else PyStr name in
    get_plugin_class C pn (world s) = (Ok cls, w1) ->
    (forall e w2,
        unmarshal C cls spec w1 = (Raise e, w2) ->
        is_ValueError e = false ->
        _build_part C name (PyDict spec) pd s =
        (Raise e,
         after_events s w2 [EvBuildPart name; EvGetPluginClass pn; EvUnmarshal spec])) /\
    (forall props w2 e w3,
        unmarshal C cls spec w1 = (Ok props, w2) ->
        strip_plugin_properties C spec pn w2 = (Raise e, w3) ->
        _build_part C name (PyDict spec) pd s =
        (Raise e,
         after_events s w3
           [EvBuildPart name; EvGetPluginClass pn; EvUnmarshal spec;
            EvStripPluginProperties spec pn])) /\
    (forall props w2 spec' w3 e w4,
        unmarshal C cls spec w1 = (Ok props, w2) ->
        strip_plugin_properties C spec pn w2 = (Ok spec', w3) ->
        Part_new C name spec' pd props w3 = (Raise e, w4) ->
        _build_part C name (PyDict spec) pd s =
        (Raise e,
         after_events s w4
           [EvBuildPart name; EvGetPluginClass pn; EvUnmarshal spec;
            EvStripPluginProperties spec pn; EvPart name])).
Proof.
  intros C name spec pd s cls w1 p pn Hg.
  subst p pn. rewrite (build_part_lookup_found C _ _ _ _ _ _ Hg), part_of_plugin_run.
  change (world (after_events s w1 ?evs)) with w1.
  repeat split.
  - intros e w2 Hu Hv. rewrite Hu, Hv. now rewrite after_events_twice.
  - intros props w2 e w3 Hu Hs. rewrite Hu, Hs. now rewrite after_events_twice.
  - intros props w2 spec' w3 e w4 Hu Hs Hp. rewrite Hu, Hs, Hp. simpl.
    now rewrite after_events_twice.
Qed.

Lemma build_part_late_errors_propagate_witness :
  (_build_part stub_collaborators "nil" (PyDict [("crash", PyNone)]) "." stub_start).1 =
    Raise (OtherError "RuntimeError" "crash") /\
  (_build_part stub_collaborators "nil" (PyDict [("frozen", PyNone)]) "." stub_start).1 =
    Raise (ValueError "frozen") /\
  (_build_part stub_collaborators "nil" (PyDict [("broken", PyNone)]) "." stub_start).1 =
    Raise (ValueError "broken part").
Proof.
  split; [| split].
  - rewrite (proj1 (build_part_late_errors_propagate stub_collaborators "nil"
                      [("crash", PyNone)] "." stub_start "nil" ["get_plugin_class"]
                      eq_refl)
                   (OtherError "RuntimeError" "crash") ["get_plugin_class"; "unmarshal"]
                   eq_refl eq_refl).
    reflexivity.
  - rewrite (proj1 (proj2 (build_part_late_errors_propagate stub_collaborators "nil"
                             [("frozen", PyNone)] "." stub_start "nil"
                             ["get_plugin_class"] eq_refl))
                   [] ["get_plugin_class"; "unmarshal"] (ValueError "frozen")
                   ["get_plugin_class"; "unmarshal"; "strip_plugin_properties"]
                   eq_refl eq_refl).
    reflexivity.
  - rewrite (proj2 (proj2 (build_part_late_errors_propagate stub_collaborators "nil"
                             [("broken", PyNone)] "." stub_start "nil"
                             ["get_plugin_class"] eq_refl))
                   [] ["get_plugin_class"; "unmarshal"] [("broken", PyNone)]
                   ["get_plugin_class"; "unmarshal"; "strip_plugin_properties"]
                   (ValueError "broken part")
                   ["get_plugin_class"; "unmarshal"; "strip_plugin_properties"; "Part"]
                   eq_refl eq_refl eq_refl).
    reflexivity.
Defined.

(** ** The constructor, step by step *)

Section ConstructorRuns.

Context (C : Collaborators).

(** Past its three checks the constructor creates the directories, then
    the project information, then the parts, then the sequencer and the
    executor, and stops at the first of them that raises. *)
Lemma init_checked d v kw (s : Env C) :
  application_name_matches (application_name kw) = true ->
  dict_lookup d "parts" = Some v ->
  __init__ C (PyDict d) kw s =
  match ProjectDirs_new C (work_dir kw) (world s) with
  | (Raise e, w0) => (Raise e, after_events s w0 [EvProjectDirs (work_dir kw)])
  | (Ok pd, w0) =>
      match ProjectInfo_new C (application_name kw) (Path (cache_dir kw)) (arch kw)
              (base kw) (parallel_build_count kw) pd (custom_args kw) w0 with
      | (Raise e, w1) =>
          (Raise e,
           after_events s w1
             [EvProjectDirs (work_dir kw);
              EvProjectInfo (application_name kw) (Path (cache_dir kw))])
      | (Ok info, w1) =>
          match v with
          | PyDict parts =>
              after_parts kw info
                (build_part_list C parts pd []
                   (after_events s w1
                      [EvProjectDirs (work_dir kw);
                       EvProjectInfo (application_name kw) (Path (cache_dir kw))]))
          | _ =>
              (Raise (AttributeError "items"),
               after_events s w1
                 [EvProjectDirs (work_dir kw);
                  EvProjectInfo (application_name kw) (Path (cache_dir kw))])
          end
      end
  end.
Proof.
  intros Hm Hv. unfold __init__. rewrite Hm.
  unfold dict_contains, dict_get. rewrite Hv. simpl.
  unfold bind at 1. unfold call at 1.
  destruct (ProjectDirs_new C (work_dir kw) (world s)) as [[pd|e] w0]; [| reflexivity].
  unfold bind at 1. unfold call at 1. simpl.
  destruct (ProjectInfo_new C _ _ _ _ _ pd _ w0) as [[info|e] w1];
    [| unfold after_events; simpl; now rewrite <- app_assoc].
  assert (Hs2 : {| self := self s; world := w1;
                   trace := (trace s ++ [EvProjectDirs (work_dir kw)]) ++
                            [EvProjectInfo (application_name kw) (Path (cache_dir kw))] |} =
                after_events s w1
                  [EvProjectDirs (work_dir kw);
                   EvProjectInfo (application_name kw) (Path (cache_dir kw))]).
  { unfold after_events. now rewrite <- app_assoc. }
  unfold bind at 1. unfold items.
  destruct v as [|b|z|n|l|parts|t i]; simpl; try (now rewrite Hs2).
  rewrite Hs2. unfold bind at 1.
  destruct (build_part_list C parts pd [] _) as [[pl|e] s3]; [| reflexivity].
  unfold after_parts, bind, setattr, getattr, call. simpl.
  destruct (Sequencer_new C pl info (world s3)) as [[sq|e] w4]; simpl; [| reflexivity].
  destruct (Executor_new C pl info (extra_build_packages kw) w4) as [[ex|e] w5];
    simpl; now rewrite <- app_assoc.
Qed.

End ConstructorRuns.

Section PartLoop.

Context (C : Collaborators).

Lemma emits_setattr ok (update : LifecycleManager C -> LifecycleManager C) :
  emits ok (setattr update).
Proof. intros s. exists []. simpl. now rewrite app_nil_r. Qed.

Lemma emits_weaken (ok ok' : Event -> bool) {A} (m : M C A) :
  (forall ev, ok ev = true -> ok' ev = true) -> emits ok m -> emits ok' m.
Proof.
  intros Himp Hm s. destruct (Hm s) as (evs & Htr & Hok). exists evs. split; auto.
  rewrite forallb_forall in *. auto.
Qed.

Lemma built_names_none evs :
  forallb (fun ev => negb (is_build_part ev)) evs = true -> built_names evs = [].
Proof.
  induction evs as [|ev evs IH]; simpl; auto.
  intros [Hev Hrest]%andb_prop. unfold built_names in *. simpl.
  destruct ev; simpl in *; try discriminate Hev; auto.
Qed.

Lemma built_names_app evs evs' :
  built_names (evs ++ evs') = built_names evs ++ built_names evs'.
Proof. apply omap_app. Qed.

(** One part: the entry event, then lookup, validation, stripping and
    part creation events only. *)
Lemma build_part_trace name spec pd (s : Env C) :
  exists evs,
    trace (_build_part C name spec pd s).2 = trace s ++ EvBuildPart name :: evs /\
    forallb (fun ev => is_part_event ev && negb (is_build_part ev)) evs = true.
Proof.
  set (ok := fun ev => is_part_event ev && negb (is_build_part ev)).
  assert (Hrest : emits ok
            (match spec with
             | PyDict spec0 =>
                 bind (plugin_lookup C name spec0)
                   (fun found => let (pn, cls) := found in
                                 part_of_plugin C name spec0 pd pn cls)
             | _ => raise (PartSpecificationError name
                             (Message "part definition is malformed"))
             end)).
  { destruct spec; try apply emits_raise.
    apply emits_bind.
    - unfold plugin_lookup. apply emits_bind; [| intros; apply emits_ret].
      apply emits_try_except; [now apply emits_call |].
      intros e h. destruct (is_ValueError e); [| discriminate].
      intros [= <-]. destruct (negb _); apply emits_raise.
    - intros [pn cls]. unfold part_of_plugin.
      apply emits_bind.
      + apply emits_try_except; [now apply emits_call |].
        intros e h H.
        destruct e; simpl in H; try discriminate H;
          injection H as <-; apply emits_raise.
      + intros props. apply emits_bind; intros; now apply emits_call. }
  unfold _build_part, bind at 1, log.
  match goal with |- context [match spec with PyDict _ => _ | _ => _ end ?s0] =>
    destruct (Hrest s0) as (evs & Htr & Hok)
  end.
  exists evs. split; [| exact Hok].
  simpl in Htr. rewrite <- app_assoc in Htr. exact Htr.
Qed.

Lemma build_part_list_app l1 l2 pd acc (s : Env C) :
  build_part_list C (l1 ++ l2) pd acc s =
  match build_part_list C l1 pd acc s with
  | (Ok pl, s1) => build_part_list C l2 pd pl s1
  | (Raise e, s1) => (Raise e, s1)
  end.
Proof.
  revert acc s. induction l1 as [|[name spec] l1 IH]; intros acc s; simpl; auto.
  unfold bind.
  destruct (_build_part C name spec pd s) as [[part|e] s1]; auto.
Qed.

(** The loop: parts are started in the order of the mapping, up to the
    first that fails; on success there is one new part for each entry. *)
Lemma build_part_list_names l pd acc (s : Env C) :
  exists evs,
    trace (build_part_list C l pd acc s).2 = trace s ++ evs /\
    forallb is_part_event evs = true /\
    built_names evs `prefix_of` map fst l /\
    forall pl,
      (build_part_list C l pd acc s).1 = Ok pl ->
      built_names evs = map fst l /\
      exists new, pl = acc ++ new /\ length new = length l.
Proof.
  revert acc s. induction l as [|[name spec] l IH]; intros acc s.
  - exists []. simpl. rewrite app_nil_r.
    split; [reflexivity |]. split; [reflexivity |]. split; [apply prefix_nil |].
    intros pl [= <-]. split; [reflexivity |]. exists []. now rewrite app_nil_r.
  - simpl. unfold bind at 1 2.
    destruct (build_part_trace name spec pd s) as (evs1 & Htr1 & Hok1).
    assert (Hpart : forallb is_part_event evs1 = true /\ built_names evs1 = []).
    { split.
      - rewrite forallb_forall in *. intros ev Hin.
        now destruct (andb_prop _ _ (Hok1 ev Hin)).
      - apply built_names_none. rewrite forallb_forall in *. intros ev Hin.
        now destruct (andb_prop _ _ (Hok1 ev Hin)). }
    destruct Hpart as (Hp1 & Hn1).
    destruct (_build_part C name spec pd s) as [[part|e] s1]; simpl in Htr1.
    + destruct (IH (acc ++ [part]) s1) as (evs & Htr & Hok & Hpre & Hall).
      exists (EvBuildPart name :: evs1 ++ evs).
      assert (Hb : built_names (EvBuildPart name :: evs1 ++ evs) =
                   name :: built_names evs).
      { change (built_names (EvBuildPart name :: evs1 ++ evs))
          with (name :: built_names (evs1 ++ evs)).
        now rewrite built_names_app, Hn1. }
      rewrite Hb, Htr, Htr1.
      split; [now rewrite <- app_assoc |].
      split; [simpl; now rewrite forallb_app, Hp1, Hok |].
      split; [simpl; now apply prefix_cons |].
      intros pl Hpl. destruct (Hall pl Hpl) as (Hnames & new & -> & Hlen).
      split; [simpl; now rewrite Hnames |].
      exists (part :: new). rewrite <- app_assoc. simpl. auto.
    + exists (EvBuildPart name :: evs1).
      assert (Hb : built_names (EvBuildPart name :: evs1) = [name]).
      { change (built_names (EvBuildPart name :: evs1)) with (name :: built_names evs1).
        now rewrite Hn1. }
      rewrite Hb.
      split; [exact Htr1 |]. split; [simpl; exact Hp1 |].
      split; [simpl; apply prefix_cons, prefix_nil |].
      intros pl Hpl. discriminate Hpl.
Qed.

End PartLoop.

Section ConstructorOutcomes.

Context (C : Collaborators).

(** Either a check fails and nothing happens, or the constructor is the
    step-by-step run of [init_checked]. *)
Lemma init_cases all_parts kw (s : Env C) :
  (exists e, __init__ C all_parts kw s = (Raise e, s)) \/
  (exists d v,
      all_parts = PyDict d /\
      application_name_matches (application_name kw) = true /\
      dict_lookup d "parts" = Some v).
Proof.
  destruct (application_name_matches (application_name kw)) eqn:Hm.
  - destruct (isinstance_dict all_parts) eqn:Hd.
    + destruct all_parts as [|b|z|n|l|d|t i]; try discriminate Hd.
      destruct (dict_lookup d "parts") as [v|] eqn:Hv.
      * right. eauto.
      * left. eexists. apply init_missing_parts; auto.
        unfold dict_contains. now rewrite Hv.
    + left. eexists. now apply init_not_dict.
  - left. eexists. now apply init_invalid_name.
Qed.

Lemma new_events_same (s : Env C) : new_events s s = [].
Proof. unfold new_events. apply drop_all. Qed.

Lemma new_events_after (s : Env C) w evs : new_events s (after_events s w evs) = evs.
Proof. now apply new_events_app. Qed.

(** What [after_parts] adds to the trace, and to the object. *)
Lemma after_parts_run kw info (r : Result (list (Part C)) * Env C) :
  match r.1 with
  | Raise e => after_parts kw info r = (Raise e, r.2)
  | Ok pl =>
      exists tail,
        trace (after_parts kw info r).2 = trace r.2 ++ tail /\
        tail `prefix_of` [EvSequencer; EvExecutor] /\
        world (after_parts kw info r).2 =
          match Sequencer_new C pl info (world r.2) with
          | (Ok sq, w4) => (Executor_new C pl info (extra_build_packages kw) w4).2
          | (Raise _, w4) => w4
          end /\
        match (after_parts kw info r).1 with
        | Ok _ =>
            tail = [EvSequencer; EvExecutor] /\
            exists sq ex,
              (Sequencer_new C pl info (world r.2)).1 = Ok sq /\
              (Executor_new C pl info (extra_build_packages kw)
                 (Sequencer_new C pl info (world r.2)).2).1 = Ok ex /\
              self (after_parts kw info r).2 = constructed pl kw info sq ex
        | Raise e =>
            _project_info (self (after_parts kw info r).2) = _project_info (self r.2) /\
            _executor (self (after_parts kw info r).2) = _executor (self r.2) /\
            ((Sequencer_new C pl info (world r.2)).1 = Raise e \/
             (Executor_new C pl info (extra_build_packages kw)
                (Sequencer_new C pl info (world r.2)).2).1 = Raise e)
        end
  end.
Proof.
  destruct r as [[pl|e] s3]; simpl; [| reflexivity].
  destruct (Sequencer_new C pl info (world s3)) as [[sq|e] w4]; simpl.
  - destruct (Executor_new C pl info (extra_build_packages kw) w4) as [[ex|e] w5]; simpl.
    + exists [EvSequencer; EvExecutor]. repeat split; eauto.
    + exists [EvSequencer; EvExecutor]. repeat split; eauto.
  - exists [EvSequencer]. repeat split; eauto.
    apply prefix_cons, prefix_nil.
Qed.

End ConstructorOutcomes.

(** X4: whatever the outcome, the constructor's calls are a prefix of:
    project directories, project information, the events of the parts,
    sequencer, executor.  It never plans, cleans, reloads or refreshes,
    and the sequencer is created only after every part is built. *)
Theorem constructor_calls_in_order :
  forall (C : Collaborators) (all_parts : PyValue) (kw : Kwargs) (s : Env C),
    exists evs,
      forallb is_part_event evs = true /\
      new_events s (__init__ C all_parts kw s).2 `prefix_of`
        head_events kw ++ evs ++ [EvSequencer; EvExecutor].
Proof.
  intros C all_parts kw s.
  destruct (init_cases C all_parts kw s) as [(e & He) | (d & v & -> & Hm & Hv)].
  { exists []. rewrite He. simpl. rewrite new_events_same. split; auto. apply prefix_nil. }
  rewrite (init_checked C d v kw s Hm Hv).
  destruct (ProjectDirs_new C (work_dir kw) (world s)) as [[pd|e] w0].
  2: { exists []. simpl. rewrite new_events_after. split; auto.
       apply prefix_cons, prefix_nil. }
  destruct (ProjectInfo_new C _ _ _ _ _ pd _ w0) as [[info|e] w1].
  2: { exists []. simpl. rewrite new_events_after. split; auto.
       apply prefix_cons, prefix_cons, prefix_nil. }
  fold (head_events kw).
  destruct v as [|b|z|n|l|parts|t i];
    try (exists []; simpl snd; rewrite new_events_after; split; auto;
         apply prefix_app_r; reflexivity).
  destruct (build_part_list_names C parts pd [] (after_events s w1 (head_events kw)))
    as (evs & Htr & Hok & _).
  pose proof (after_parts_run C kw info
                (build_part_list C parts pd [] (after_events s w1 (head_events kw))))
    as Hrun.
  exists evs. split; [exact Hok |].
  destruct (build_part_list C parts pd [] _) as [[pl|e] s3];
    cbn [fst snd] in Htr, Hrun.
  - destruct Hrun as (tail & Htr' & Hpre & _).
    rewrite (new_events_app C s _ (head_events kw ++ evs ++ tail)).
    + exact (prefix_app (head_events kw) _ _ (prefix_app evs _ _ Hpre)).
    + rewrite Htr', Htr. unfold after_events. cbn [trace].
      now rewrite <- !app_assoc.
  - rewrite Hrun. simpl snd.
    rewrite (new_events_app C s _ (head_events kw ++ evs)).
    + exact (prefix_app (head_events kw) _ _
               (prefix_app_r evs evs [EvSequencer; EvExecutor] (reflexivity evs))).
    + rewrite Htr. unfold after_events. cbn [trace]. now rewrite <- !app_assoc.
Qed.

Section ConstructorTheorems.

Context (C : Collaborators).

Lemma ok_eta {A} (r : Result A * Env C) a : r.1 = Ok a -> r = (Ok a, r.2).
Proof. destruct r as [r s]. simpl. now intros ->. Qed.

Lemma raise_eta {A} (r : Result A * Env C) e : r.1 = Raise e -> r = (Raise e, r.2).
Proof. destruct r as [r s]. simpl. now intros ->. Qed.

Lemma built_names_head kw evs :
  built_names (head_events kw ++ evs) = built_names evs.
Proof. reflexivity. Qed.

(** The events of the constructor past its checks, when the parts value
    is a mapping: the two head events, those of the part loop, and the
    sequencer and executor events that [after_parts] adds. *)
Lemma init_parts_events d parts kw (s : Env C) :
  application_name_matches (application_name kw) = true ->
  dict_lookup d "parts" = Some (PyDict parts) ->
  forall pd w0 info w1,
    ProjectDirs_new C (work_dir kw) (world s) = (Ok pd, w0) ->
    ProjectInfo_new C (application_name kw) (Path (cache_dir kw)) (arch kw) (base kw)
      (parallel_build_count kw) pd (custom_args kw) w0 = (Ok info, w1) ->
    __init__ C (PyDict d) kw s =
    after_parts kw info
      (build_part_list C parts pd [] (after_events s w1 (head_events kw))).
Proof.
  intros Hm Hv pd w0 info w1 Hd Hi.
  rewrite (init_checked C d _ kw s Hm Hv), Hd, Hi. reflexivity.
Qed.

Lemma built_names_tail tail :
  tail `prefix_of` [EvSequencer; EvExecutor] -> built_names tail = [].
Proof.
  intros [k Hk]. destruct tail as [|x tail]; [reflexivity |].
  simpl in Hk. injection Hk as <- Hk.
  destruct tail as [|y tail]; [reflexivity |].
  simpl in Hk. injection Hk as <- Hk.
  destruct tail; [reflexivity | discriminate Hk].
Qed.

End ConstructorTheorems.

(** X5: the parts are built in the order of the [parts] mapping: the
    names of the parts whose construction was started are a prefix of
    the mapping's keys, whatever the outcome, and all of them when the
    constructor returns, with one part in the part list for each entry. *)
Theorem parts_are_built_in_mapping_order :
  forall (C : Collaborators) (d parts : PyDictT) (kw : Kwargs) (s : Env C),
    dict_lookup d "parts" = Some (PyDict parts) ->
    built_names (new_events s (__init__ C (PyDict d) kw s).2)
      `prefix_of` map fst parts /\
    (is_ok (__init__ C (PyDict d) kw s).1 = true ->
     built_names (new_events s (__init__ C (PyDict d) kw s).2) = map fst parts /\
     exists pl,
       _part_list (self (__init__ C (PyDict d) kw s).2) = Some pl /\
       length pl = length parts).
Proof.
  intros C d parts kw s Hv.
  destruct (application_name_matches (application_name kw)) eqn:Hm.
  2: { rewrite (init_invalid_name C _ kw s Hm). simpl. rewrite new_events_same.
       split; [apply prefix_nil | discriminate]. }
  rewrite (init_checked C d _ kw s Hm Hv).
  destruct (ProjectDirs_new C (work_dir kw) (world s)) as [[pd|e] w0].
  2: { simpl. rewrite new_events_after. split; [apply prefix_nil | discriminate]. }
  destruct (ProjectInfo_new C _ _ _ _ _ pd _ w0) as [[info|e] w1].
  2: { simpl. rewrite new_events_after. split; [apply prefix_nil | discriminate]. }
  fold (head_events kw).
  destruct (build_part_list_names C parts pd [] (after_events s w1 (head_events kw)))
    as (evs & Htr & Hok & Hpre & Hall).
  pose proof (after_parts_run C kw info
                (build_part_list C parts pd [] (after_events s w1 (head_events kw))))
    as Hrun.
  destruct (build_part_list C parts pd [] _) as [[pl|e] s3];
    cbn [fst snd] in Htr, Hrun, Hall.
  - destruct Hrun as (tail & Htr' & Htail & _ & Hres).
    destruct (Hall pl eq_refl) as (Hnames & new & Hpl & Hlen).
    pose proof (built_names_tail tail Htail) as Hb.
    rewrite (new_events_app C s _ (head_events kw ++ evs ++ tail)).
    2: { rewrite Htr', Htr. unfold after_events. cbn [trace].
         now rewrite <- !app_assoc. }
    rewrite built_names_head, built_names_app, Hb, app_nil_r, Hnames.
    split; [reflexivity |]. intros Hok'. split; [reflexivity |].
    destruct (after_parts kw info (Ok pl, s3)) as [[[]|e] s4];
      cbn [fst snd] in *; [| discriminate Hok'].
    destruct Hres as (_ & sq & ex & _ & _ & ->).
    exists pl. split; [reflexivity |]. subst pl. simpl. exact Hlen.
  - rewrite Hrun. cbn [fst snd].
    rewrite (new_events_app C s _ (head_events kw ++ evs)).
    2: { rewrite Htr. unfold after_events. cbn [trace]. now rewrite <- !app_assoc. }
    rewrite built_names_head. split; [exact Hpre | discriminate].
Qed.

Lemma parts_are_built_in_mapping_order_witness :
  built_names
    (new_events stub_start
       (__init__ stub_collaborators
          (PyDict [("parts",
                    PyDict [("b", PyDict [("plugin", PyStr "nil")]);
                            ("a", PyDict [("plugin", PyStr "dump")])])])
          (kwargs "test_app" "cache") stub_start).2) = ["b"; "a"].
Proof.
  exact (proj1 (proj2 (parts_are_built_in_mapping_order stub_collaborators
                         [("parts",
                           PyDict [("b", PyDict [("plugin", PyStr "nil")]);
                                   ("a", PyDict [("plugin", PyStr "dump")])])]
                         [("b", PyDict [("plugin", PyStr "nil")]);
                          ("a", PyDict [("plugin", PyStr "dump")])]
                         (kwargs "test_app" "cache") stub_start eq_refl)
                      eq_refl)).
Defined.

(** X6: a constructor that raises has assigned neither [_project_info]
    nor [_executor]; if it raises before the sequencer is created, it has
    assigned no attribute at all. *)
Theorem failed_constructor_assigns_no_project_info :
  forall (C : Collaborators) (all_parts : PyValue) (kw : Kwargs) (s s' : Env C) e,
    __init__ C all_parts kw s = (Raise e, s') ->
    _project_info (self s') = _project_info (self s) /\
    _executor (self s') = _executor (self s) /\
    (forallb (fun ev => negb (is_sequencer_or_executor ev)) (new_events s s') = true ->
     self s' = self s).
Proof.
  intros C all_parts kw s s' e.
  destruct (init_cases C all_parts kw s) as [(e0 & He) | (d & v & -> & Hm & Hv)].
  { rewrite He. intros [= _ <-]. auto. }
  rewrite (init_checked C d v kw s Hm Hv).
  destruct (ProjectDirs_new C (work_dir kw) (world s)) as [[pd|e1] w0].
  2: { intros [= _ <-]. auto. }
  destruct (ProjectInfo_new C _ _ _ _ _ pd _ w0) as [[info|e1] w1].
  2: { intros [= _ <-]. auto. }
  fold (head_events kw).
  destruct v as [|b|z|n|l|parts|t i]; try (intros [= _ <-]; auto).
  pose proof (build_part_list_keeps_self C parts pd []
                (after_events s w1 (head_events kw))) as Hself.
  destruct (build_part_list_names C parts pd [] (after_events s w1 (head_events kw)))
    as (evs & Htr & _).
  destruct (build_part_list C parts pd [] _) as [[pl|e1] s3]; cbn [fst snd] in Hself, Htr.
  2: { intros [= _ <-]. rewrite Hself. auto. }
  unfold after_parts.
  destruct (Sequencer_new C pl info (world s3)) as [[sq|e1] w4].
  - destruct (Executor_new C pl info (extra_build_packages kw) w4) as [[ex|e1] w5];
      [discriminate |].
    intros [= _ <-]. cbn [self with_sequencer _project_info _executor].
    rewrite Hself. split; [reflexivity |]. split; [reflexivity |].
    rewrite (new_events_app C s _ (head_events kw ++ evs ++ [EvSequencer; EvExecutor])).
    + rewrite !forallb_app. simpl. rewrite !andb_false_r. discriminate.
    + cbn [trace]. rewrite Htr. unfold after_events. cbn [trace].
      now rewrite <- !app_assoc.
  - intros [= _ <-]. cbn [self with_parts _project_info _executor].
    rewrite Hself. split; [reflexivity |]. split; [reflexivity |].
    rewrite (new_events_app C s _ (head_events kw ++ evs ++ [EvSequencer])).
    + rewrite !forallb_app. simpl. rewrite !andb_false_r. discriminate.
    + cbn [trace]. rewrite Htr. unfold after_events. cbn [trace].
      now rewrite <- !app_assoc.
Qed.

Lemma failed_constructor_assigns_no_project_info_witness :
  self (__init__ stub_collaborators
          (PyDict [("parts", PyDict [("a", PyDict [("plugin", PyStr "zzz")])])])
          (kwargs "test_app" "cache") stub_start).2 = new_object stub_collaborators.
Proof.
  pose (r := __init__ stub_collaborators
               (PyDict [("parts", PyDict [("a", PyDict [("plugin", PyStr "zzz")])])])
               (kwargs "test_app" "cache") stub_start).
  exact (proj2 (proj2 (failed_constructor_assigns_no_project_info stub_collaborators
                         (PyDict [("parts",
                                   PyDict [("a", PyDict [("plugin", PyStr "zzz")])])])
                         (kwargs "test_app" "cache") stub_start r.2
                         (InvalidPlugin (PyStr "zzz") "a")
                         (raise_eta stub_collaborators r
                            (InvalidPlugin (PyStr "zzz") "a") eq_refl))) eq_refl).
Defined.

(** X7: when the parts before it are built and a part fails, the
    constructor raises that part's exception in the environment the part
    left: the parts after it are not looked at, the sequencer and the
    executor are not created and no attribute is assigned. *)
Theorem failing_part_fails_the_constructor :
  forall (C : Collaborators) (d done rest : PyDictT) (name : string) (spec : PyValue)
         (kw : Kwargs) (s : Env C) pd w0 info w1 pl e,
    application_name_matches (application_name kw) = true ->
    dict_lookup d "parts" = Some (PyDict (done ++ (name, spec) :: rest)) ->
    ProjectDirs_new C (work_dir kw) (world s) = (Ok pd, w0) ->
    ProjectInfo_new C (application_name kw) (Path (cache_dir kw)) (arch kw) (base kw)
      (parallel_build_count kw) pd (custom_args kw) w0 = (Ok info, w1) ->
    let built := build_part_list C done pd [] (after_events s w1 (head_events kw)) in
    built.1 = Ok pl ->
    (_build_part C name spec pd built.2).1 = Raise e ->
    __init__ C (PyDict d) kw s = (Raise e, (_build_part C name spec pd built.2).2) /\
    self (__init__ C (PyDict d) kw s).2 = self s /\
    built_names (new_events s (__init__ C (PyDict d) kw s).2) = map fst done ++ [name].
Proof.
  intros C d done rest name spec kw s pd w0 info w1 pl e Hm Hv Hd Hi built Hb Hp.
  assert (Hinit : __init__ C (PyDict d) kw s =
                  (Raise e, (_build_part C name spec pd built.2).2)).
  { rewrite (init_parts_events C d _ kw s Hm Hv pd w0 info w1 Hd Hi).
    rewrite build_part_list_app. fold built.
    rewrite (ok_eta C built pl Hb). simpl build_part_list. unfold bind at 1.
    rewrite (raise_eta C _ e Hp). reflexivity. }
  rewrite Hinit. cbn [fst snd]. split; [reflexivity |].
  pose proof (build_part_list_keeps_self C done pd []
                (after_events s w1 (head_events kw))) as Hself.
  destruct (build_part_list_names C done pd [] (after_events s w1 (head_events kw)))
    as (evs & Htr & _ & _ & Hall).
  fold built in Hself, Htr, Hall.
  destruct (Hall pl Hb) as (Hnames & _).
  destruct (build_part_trace C name spec pd built.2) as (evs1 & Htr1 & Hok1).
  split.
  - rewrite build_part_keeps_self, Hself. reflexivity.
  - rewrite (new_events_app C s _ (head_events kw ++ evs ++ EvBuildPart name :: evs1)).
    + rewrite built_names_head, built_names_app, Hnames.
      change (built_names (EvBuildPart name :: evs1)) with (name :: built_names evs1).
      rewrite built_names_none; [reflexivity |].
      rewrite forallb_forall in *. intros ev Hin.
      now destruct (andb_prop _ _ (Hok1 ev Hin)).
    + rewrite Htr1, Htr. unfold after_events. cbn [trace]. now rewrite <- !app_assoc.
Qed.

Lemma failing_part_fails_the_constructor_witness :
  (__init__ stub_collaborators
     (PyDict [("parts",
               PyDict [("a", PyDict [("plugin", PyStr "nil")]);
                       ("b", PyDict [("plugin", PyStr "zzz")]);
                       ("c", PyDict [("plugin", PyStr "nil")])])])
     (kwargs "test_app" "cache") stub_start).1 =
    Raise (InvalidPlugin (PyStr "zzz") "b") /\
  built_names
    (new_events stub_start
       (__init__ stub_collaborators
          (PyDict [("parts",
                    PyDict [("a", PyDict [("plugin", PyStr "nil")]);
                            ("b", PyDict [("plugin", PyStr "zzz")]);
                            ("c", PyDict [("plugin", PyStr "nil")])])])
          (kwargs "test_app" "cache") stub_start).2) = ["a"; "b"].
Proof.
  destruct (failing_part_fails_the_constructor stub_collaborators
              [("parts",
                PyDict [("a", PyDict [("plugin", PyStr "nil")]);
                        ("b", PyDict [("plugin", PyStr "zzz")]);
                        ("c", PyDict [("plugin", PyStr "nil")])])]
              [("a", PyDict [("plugin", PyStr "nil")])]
              [("c", PyDict [("plugin", PyStr "nil")])]
              "b" (PyDict [("plugin", PyStr "zzz")])
              (kwargs "test_app" "cache") stub_start
              "." ["ProjectDirs"] ("test_app", Path "cache", "")
              ["ProjectDirs"; "ProjectInfo"]
              [("a", [("plugin", PyStr "nil")], [])]
              (InvalidPlugin (PyStr "zzz") "b")
              eq_refl eq_refl eq_refl eq_refl eq_refl eq_refl)
    as (Hinit & _ & Hnames).
  split; [| exact Hnames].
  rewrite Hinit. reflexivity.
Defined.

(** A constructor that returns has created sequencer and executor from
    one part list and one project information, and stored all of them. *)
Lemma init_returns_constructed :
  forall (C : Collaborators) (all_parts : PyValue) (kw : Kwargs) (s s' : Env C),
    __init__ C all_parts kw s = (Ok tt, s') ->
    exists pl info sq ex w3 w4,
      Sequencer_new C pl info w3 = (Ok sq, w4) /\
      Executor_new C pl info (extra_build_packages kw) w4 = (Ok ex, world s') /\
      self s' = constructed pl kw info sq ex.
Proof.
  intros C all_parts kw s s'.
  destruct (init_cases C all_parts kw s) as [(e0 & He) | (d & v & -> & Hm & Hv)].
  { rewrite He. discriminate. }
  rewrite (init_checked C d v kw s Hm Hv).
  destruct (ProjectDirs_new C (work_dir kw) (world s)) as [[pd|e1] w0];
    [| discriminate].
  destruct (ProjectInfo_new C _ _ _ _ _ pd _ w0) as [[info|e1] w1]; [| discriminate].
  destruct v as [|b|z|n|l|parts|t i]; try discriminate.
  destruct (build_part_list C parts pd [] _) as [[pl|e1] s3]; [| discriminate].
  unfold after_parts.
  destruct (Sequencer_new C pl info (world s3)) as [[sq|e1] w4] eqn:Hsq;
    [| discriminate].
  destruct (Executor_new C pl info (extra_build_packages kw) w4) as [[ex|e1] w5] eqn:Hex;
    [| discriminate].
  intros [= <-]. exists pl, info, sq, ex, (world s3), w4. auto.
Qed.


(** X8: when the constructor returns, the sequencer and the executor
    have been created from the same part list and the same project
    information, the executor after the sequencer and in the world it
    left, and the six attributes hold exactly these values. *)
Theorem constructed_manager_shares_parts_and_info :
  forall (C : Collaborators) (all_parts : PyValue) (kw : Kwargs) (s s' : Env C),
    __init__ C all_parts kw s = (Ok tt, s') ->
    exists pl info sq ex w3 w4,
      Sequencer_new C pl info w3 = (Ok sq, w4) /\
      Executor_new C pl info (extra_build_packages kw) w4 = (Ok ex, world s') /\
      self s' = constructed pl kw info sq ex.
Proof. exact init_returns_constructed. Qed.

Lemma constructed_manager_shares_parts_and_info_witness :
  exists pl info sq ex,
    self (__init__ stub_collaborators foo_bar (kwargs "test_app" "cache") stub_start).2 =
    constructed pl (kwargs "test_app" "cache") info sq ex.
Proof.
  pose (r := __init__ stub_collaborators foo_bar (kwargs "test_app" "cache") stub_start).
  destruct (constructed_manager_shares_parts_and_info stub_collaborators foo_bar
              (kwargs "test_app" "cache") stub_start r.2
              (ok_unit_eta stub_collaborators r eq_refl))
    as (pl & info & sq & ex & _ & _ & _ & _ & Hself).
  exists pl, info, sq, ex. exact Hself.
Defined.

(** X9: a [parts] entry that is not a mapping (None, a list, a string)
    passes the three checks; the constructor then creates the project
    directories and the project information and raises AttributeError at
    [parts_data.items()], with no part built and no attribute assigned. *)
Theorem parts_value_must_be_a_mapping :
  forall (C : Collaborators) (d : PyDictT) (v : PyValue) (kw : Kwargs) (s : Env C)
         pd w0 info w1,
    application_name_matches (application_name kw) = true ->
    dict_lookup d "parts" = Some v ->
    isinstance_dict v = false ->
    ProjectDirs_new C (work_dir kw) (world s) = (Ok pd, w0) ->
    ProjectInfo_new C (application_name kw) (Path (cache_dir kw)) (arch kw) (base kw)
      (parallel_build_count kw) pd (custom_args kw) w0 = (Ok info, w1) ->
    __init__ C (PyDict d) kw s =
    (Raise (AttributeError "items"), after_events s w1 (head_events kw)).
Proof.
  intros C d v kw s pd w0 info w1 Hm Hv Hnd Hd Hi.
  rewrite (init_checked C d v kw s Hm Hv), Hd, Hi.
  destruct v; try reflexivity. discriminate Hnd.
Qed.

Lemma parts_value_must_be_a_mapping_witness :
  __init__ stub_collaborators (PyDict [("parts", PyNone)]) (kwargs "test_app" "cache")
    stub_start =
  (Raise (AttributeError "items"),
   after_events stub_start ["ProjectDirs"; "ProjectInfo"]
     (head_events (kwargs "test_app" "cache"))).
Proof.
  exact (parts_value_must_be_a_mapping stub_collaborators [("parts", PyNone)] PyNone
           (kwargs "test_app" "cache") stub_start
           "." ["ProjectDirs"] ("test_app", Path "cache", "")
           ["ProjectDirs"; "ProjectInfo"]
           eq_refl eq_refl eq_refl eq_refl eq_refl).
Defined.

(** X10: every later operation of a constructed manager goes to the
    sequencer and the executor that the constructor created, whatever
    operations ran in between: [plan] and [reload_state] call that
    sequencer, [clean] and [action_executor] that executor, each with the
    arguments given and in the current world, and return what it returns. *)
Theorem operations_use_the_constructed_collaborators :
  forall (C : Collaborators) (all_parts : PyValue) (kw : Kwargs) (s s' : Env C),
    __init__ C all_parts kw s = (Ok tt, s') ->
    exists sq ex,
      _sequencer (self s') = Some sq /\
      _executor (self s') = Some ex /\
      forall ops,
        let s2 := run_operations C s' ops in
        (forall target names,
            plan C target names s2 =
            ((Sequencer_plan C sq target names (world s2)).1,
             after_events s2 (Sequencer_plan C sq target names (world s2)).2
               [EvSequencerPlan target names])) /\
        (forall step names,
            clean C step names s2 =
            ((Executor_clean C ex (default PULL step) names (world s2)).1,
             after_events s2 (Executor_clean C ex (default PULL step) names (world s2)).2
               [EvExecutorClean (default PULL step) names])) /\
        reload_state C s2 =
          ((Sequencer_reload_state C sq (world s2)).1,
           after_events s2 (Sequencer_reload_state C sq (world s2)).2
             [EvSequencerReloadState]) /\
        action_executor C s2 =
          ((ExecutionContext_new C ex (world s2)).1,
           after_events s2 (ExecutionContext_new C ex (world s2)).2
             [EvExecutionContext]).
Proof.
  intros C all_parts kw s s' Hinit.
  destruct (init_returns_constructed C _ _ _ _ Hinit)
    as (pl & info & sq & ex & w3 & w4 & _ & _ & Hself).
  exists sq, ex. rewrite Hself. split; [reflexivity |]. split; [reflexivity |].
  intros ops s2.
  assert (Hs2 : self s2 = constructed pl kw info sq ex).
  { unfold s2. now rewrite run_operations_keeps_self. }
  repeat split.
  - intros target names. unfold plan, bind, getattr, call, ret, after_events.
    rewrite Hs2. simpl.
    destruct (Sequencer_plan C sq target names (world s2)) as [[acts|e] w]; simpl; now rewrite ?Hs2.
  - intros step names. unfold clean, bind, getattr, call, after_events.
    rewrite Hs2. simpl.
    destruct (Executor_clean C ex (default PULL step) names (world s2)); simpl; now rewrite ?Hs2.
  - unfold reload_state, bind, getattr, call, after_events. rewrite Hs2. simpl.
    destruct (Sequencer_reload_state C sq (world s2)); simpl; now rewrite ?Hs2.
  - unfold action_executor, bind, getattr, call, after_events. rewrite Hs2. simpl.
    destruct (ExecutionContext_new C ex (world s2)); simpl; now rewrite ?Hs2.
Qed.

(** X11: [refresh_packages_list] stops at a failing stage refresh: its
    exception is raised and the build refresh is not attempted, even with
    [system] true.  Otherwise the build refresh, when asked for, runs in
    the world the stage refresh left and its outcome is the outcome. *)
Theorem refresh_packages_list_runs :
  forall (C : Collaborators) (system : option bool) (s : Env C) info ta,
    _project_info (self s) = Some info ->
    _target_arch (self s) = Some ta ->
    let stage :=
      refresh_stage_packages_list C (ProjectInfo_cache_dir C info) ta (world s) in
    let ev := EvRefreshStagePackagesList (ProjectInfo_cache_dir C info) ta in
    (forall e, stage.1 = Raise e ->
               refresh_packages_list C system s = (Raise e, after_events s stage.2 [ev])) /\
    (stage.1 = Ok tt -> system = Some true ->
     refresh_packages_list C system s =
     ((refresh_build_packages_list C stage.2).1,
      after_events s (refresh_build_packages_list C stage.2).2
        [ev; EvRefreshBuildPackagesList])) /\
    (stage.1 = Ok tt -> default false system = false ->
     refresh_packages_list C system s = (Ok tt, after_events s stage.2 [ev])).
Proof.
  intros C system s info ta Hi Ht stage ev.
  unfold refresh_packages_list, bind, getattr, call, ret, after_events.
  rewrite Hi, Ht. fold stage. destruct stage as [[[]|e] w1]; simpl.
  - split; [discriminate |]. split.
    + intros _ ->. simpl.
      destruct (refresh_build_packages_list C w1). simpl. now rewrite <- app_assoc.
    + intros _ ->. reflexivity.
  - split; [| split; discriminate].
    now intros e' [= <-].
Qed.


Lemma operations_use_the_constructed_collaborators_witness :
  exists sq,
    _sequencer (self (stub_manager (kwargs "test_app" "cache"))) = Some sq /\
    (plan stub_collaborators BUILD None
       (run_operations stub_collaborators (stub_manager (kwargs "test_app" "cache"))
          [OpClean None None; OpReloadState])).1 =
    (Sequencer_plan stub_collaborators sq BUILD None
       (world (run_operations stub_collaborators
                 (stub_manager (kwargs "test_app" "cache"))
                 [OpClean None None; OpReloadState]))).1.
Proof.
  destruct (operations_use_the_constructed_collaborators stub_collaborators foo_bar
              (kwargs "test_app" "cache") stub_start
              (stub_manager (kwargs "test_app" "cache"))
              (ok_unit_eta stub_collaborators
                 (__init__ stub_collaborators foo_bar (kwargs "test_app" "cache")
                    stub_start) eq_refl))
    as (sq & ex & Hsq & _ & Hops).
  exists sq. split; [exact Hsq |].
  exact (f_equal fst (proj1 (Hops [OpClean None None; OpReloadState]) BUILD None)).
Defined.

Lemma refresh_packages_list_runs_witness :
  (refresh_packages_list stub_collaborators (Some true) (stub_manager unknown_arch)).1 =
    Raise (OtherError "CacheUpdateFailed" "unknown") /\
  (refresh_packages_list stub_collaborators (Some true)
     (stub_manager (kwargs "test_app" "cache"))).1 =
    (refresh_build_packages_list stub_collaborators
       (refresh_stage_packages_list stub_collaborators (Path "cache") ""
          (world (stub_manager (kwargs "test_app" "cache")))).2).1 /\
  (refresh_packages_list stub_collaborators None
     (stub_manager (kwargs "test_app" "cache"))).1 = Ok tt.
Proof.
  split; [| split].
  - exact (f_equal fst
             (proj1 (refresh_packages_list_runs stub_collaborators (Some true)
                       (stub_manager unknown_arch)
                       ("test_app", Path "cache", "unknown") "unknown" eq_refl eq_refl)
                    (OtherError "CacheUpdateFailed" "unknown") eq_refl)).
  - exact (f_equal fst
             (proj1 (proj2 (refresh_packages_list_runs stub_collaborators (Some true)
                              (stub_manager (kwargs "test_app" "cache"))
                              ("test_app", Path "cache", "") "" eq_refl eq_refl))
                    eq_refl eq_refl)).
  - exact (f_equal fst
             (proj2 (proj2 (refresh_packages_list_runs stub_collaborators None
                              (stub_manager (kwargs "test_app" "cache"))
                              ("test_app", Path "cache", "") "" eq_refl eq_refl))
                    eq_refl eq_refl)).
Defined.

(** ** The accepted application names *)

Section NameFacts.

Import Re.

Lemma chomp_append s : chomp (String.append s (String newline EmptyString)) = Some s.
Proof.
  induction s as [|c s IH]; [reflexivity |].
  destruct s as [|c' s]; [reflexivity |].
  change (chomp (String.append (String c (String c' s)) (String newline EmptyString)))
    with (option_map (String c)
            (chomp (String.append (String c' s) (String newline EmptyString)))).
  now rewrite IH.
Qed.

Lemma chomp_some s s' :
  chomp s = Some s' -> s = String.append s' (String newline EmptyString).
Proof.
  revert s'. induction s as [|c s IH]; intros s'; simpl; [discriminate |].
  destruct s as [|c' s].
  - destruct (Ascii.eqb c newline) eqn:E; [| discriminate].
    intros [= <-]. apply Ascii.eqb_eq in E. now subst c.
  - destruct (chomp (String c' s)) as [r|]; simpl; [| discriminate].
    intros [= <-].
    change (String c (String c' s) =
            String c (String.append r (String newline EmptyString))).
    f_equal. now apply IH.
Qed.

End NameFacts.

(** X12: the application name check accepts exactly a letter followed by
    letters, digits and underscores, and such a name followed by one
    newline: [$] also matches before a final newline.  An accepted name is
    never empty and begins with an ASCII letter. *)
Theorem application_name_accepted_iff :
  forall s : string,
    (application_name_matches s = true <->
     exists body,
       letter_then_words body = true /\
       (s = body \/ s = String.append body (String Re.newline EmptyString))) /\
    (application_name_matches s = true ->
     exists c rest, s = String c rest /\ Re.letter c = true).
Proof.
  intros s.
  assert (Hiff : application_name_matches s = true <->
                 exists body,
                   letter_then_words body = true /\
                   (s = body \/ s = String.append body (String Re.newline EmptyString))).
  { rewrite application_name_matches_chars. split.
    - intros [H | H]%orb_prop.
      + exists s. auto.
      + destruct (Re.chomp s) as [s'|] eqn:E; [| discriminate H].
        exists s'. split; [exact H |]. right. now apply chomp_some.
    - intros (body & Hb & [-> | ->]).
      + now rewrite Hb.
      + rewrite chomp_append, Hb. apply orb_true_r. }
  split; [exact Hiff |].
  intros H. apply Hiff in H. destruct H as (body & Hb & Hs).
  destruct body as [|c rest]; [discriminate Hb |].
  simpl in Hb. apply andb_prop in Hb. destruct Hb as (Hc & _).
  destruct Hs as [-> | ->]; simpl; eauto.
Qed.

Lemma application_name_accepted_iff_witness :
  application_name_matches
    (String.append "craft_parts2" (String Re.newline EmptyString)) = true /\
  exists c rest, "snapcraft" = String c rest /\ Re.letter c = true.
Proof.
  split.
  - apply (proj2 (proj1 (application_name_accepted_iff
                           (String.append "craft_parts2" (String Re.newline EmptyString))))).
    exists "craft_parts2". split; [reflexivity | right; reflexivity].
  - exact (proj2 (application_name_accepted_iff "snapcraft") eq_refl).
Defined.

(** ** The setup script *)

Section SetupFacts.

Import SetupPy.

Lemma append_cons c s t : String.append (String c s) t = String c (String.append s t).
Proof. reflexivity. Qed.

Lemma prefix_spec n h :
  String.prefix n h = true <-> exists post, h = String.append n post.
Proof.
  revert h. induction n as [|a n IH]; intros h.
  - split; [intros _; now exists h | intros _; now destruct h].
  - destruct h as [|b h].
    + split; [discriminate | intros (post & Hp)].
      rewrite append_cons in Hp. discriminate Hp.
    + change (String.prefix (String a n) (String b h))
        with (if ascii_dec a b then String.prefix n h else false).
      destruct (ascii_dec a b) as [<- | Hne].
      * split.
        -- intros H. apply IH in H. destruct H as (post & ->). now exists post.
        -- intros (post & Hp). rewrite append_cons in Hp. injection Hp as ->.
           apply IH. now exists post.
      * split; [discriminate |]. intros (post & Hp).
        rewrite append_cons in Hp. injection Hp as Hab _. now destruct Hne.
Qed.

Lemma str_contains_spec n h :
  str_contains n h = true <->
  exists pre post, h = String.append pre (String.append n post).
Proof.
  induction h as [|c h IH].
  - change (str_contains n EmptyString) with (String.prefix n EmptyString || false).
    rewrite orb_false_r. split.
    + intros H. apply prefix_spec in H. destruct H as (post & Hp).
      now exists EmptyString, post.
    + intros (pre & post & Hp). apply prefix_spec.
      destruct pre as [|c pre]; [now exists post |].
      rewrite append_cons in Hp. discriminate Hp.
  - change (str_contains n (String c h))
      with (String.prefix n (String c h) || str_contains n h).
    split.
    + intros [H | H]%orb_prop.
      * apply prefix_spec in H. destruct H as (post & Hp). now exists EmptyString, post.
      * apply IH in H. destruct H as (pre & post & ->). now exists (String c pre), post.
    + intros (pre & post & Hp). apply orb_true_iff. destruct pre as [|c' pre].
      * left. apply prefix_spec. now exists post.
      * right. rewrite append_cons in Hp. injection Hp as _ ->.
        apply IH. now exists pre, post.
Qed.

End SetupFacts.

(** X13: [is_ubuntu] is a substring test on /etc/os-release: it is true
    exactly when the file can be read and [ID=ubuntu] occurs somewhere in
    its text; a missing file gives false; any other error of reading the
    file is raised. *)
Theorem is_ubuntu_is_a_substring_test :
  forall fs : SetupPy.FileSystem,
    (SetupPy.is_ubuntu fs = Ok true <->
     exists pre post,
       fs "/etc/os-release" = Ok (String.append pre (String.append "ID=ubuntu" post))) /\
    (forall e, fs "/etc/os-release" = Raise e ->
               SetupPy.is_FileNotFoundError e = true ->
               SetupPy.is_ubuntu fs = Ok false) /\
    (forall e, SetupPy.is_ubuntu fs = Raise e <->
               fs "/etc/os-release" = Raise e /\ SetupPy.is_FileNotFoundError e = false).
Proof.
  intros fs. unfold SetupPy.is_ubuntu.
  destruct (fs "/etc/os-release") as [text|e0].
  - split; [| split].
    + split.
      * intros [= Hc]. apply str_contains_spec in Hc.
        destruct Hc as (pre & post & ->). eauto.
      * intros (pre & post & [= ->]). f_equal. apply str_contains_spec. eauto.
    + intros e He. discriminate He.
    + intros e. split; [discriminate | intros [He _]; discriminate He].
  - split; [| split].
    + split.
      * destruct (SetupPy.is_FileNotFoundError e0); discriminate.
      * intros (pre & post & He). discriminate He.
    + intros e [= <-] ->. reflexivity.
    + intros e. split.
      * destruct (SetupPy.is_FileNotFoundError e0) eqn:E;
          [discriminate | intros [= <-]; auto].
      * intros ([= <-] & ->). reflexivity.
Qed.

Lemma is_ubuntu_is_a_substring_test_witness :
  SetupPy.is_ubuntu
    (SetupPy.files [("/etc/os-release", "NAME=x ID=ubuntu-core VERSION_ID=20")]) = Ok true /\
  SetupPy.is_ubuntu (SetupPy.files []) = Ok false.
Proof.
  split.
  - apply (proj2 (proj1 (is_ubuntu_is_a_substring_test
                           (SetupPy.files
                              [("/etc/os-release",
                                "NAME=x ID=ubuntu-core VERSION_ID=20")])))).
    exists "NAME=x ", "-core VERSION_ID=20". reflexivity.
  - exact (proj1 (proj2 (is_ubuntu_is_a_substring_test (SetupPy.files [])))
                 (OtherError "FileNotFoundError" "/etc/os-release") eq_refl eq_refl).
Defined.

(** X14: the setup script reads README.md first and fails with its
    error when it cannot; a missing /etc/os-release never makes it fail.
    The requirements passed to [setup] are the six fixed ones, in order,
    followed by [python-apt] exactly on Ubuntu, and the long description
    is the text of README.md. *)
Theorem setup_script_requirements :
  forall (fs : SetupPy.FileSystem) (find_packages : list string -> list string),
    (forall e, fs "README.md" = Raise e -> SetupPy.script fs find_packages = Raise e) /\
    (forall readme e,
        fs "README.md" = Ok readme -> SetupPy.is_ubuntu fs = Raise e ->
        SetupPy.script fs find_packages = Raise e) /\
    (forall readme ubuntu,
        fs "README.md" = Ok readme -> SetupPy.is_ubuntu fs = Ok ubuntu ->
        exists call,
          SetupPy.script fs find_packages = Ok call /\
          SetupPy.long_description call = readme /\
          SetupPy.setup_install_requires call =
            SetupPy.install_requires ++ (if ubuntu then ["python-apt"] else []) /\
          (In "python-apt" (SetupPy.setup_install_requires call) <-> ubuntu = true) /\
          SetupPy.packages call = find_packages ["craft_parts"; "craft_parts.*"]) /\
    (forall readme e,
        fs "README.md" = Ok readme -> fs "/etc/os-release" = Raise e ->
        SetupPy.is_FileNotFoundError e = true ->
        exists call,
          SetupPy.script fs find_packages = Ok call /\
          SetupPy.setup_install_requires call = SetupPy.install_requires).
Proof.
  intros fs fp.
  assert (Hok : forall readme ubuntu,
             fs "README.md" = Ok readme -> SetupPy.is_ubuntu fs = Ok ubuntu ->
             exists call,
               SetupPy.script fs fp = Ok call /\
               SetupPy.long_description call = readme /\
               SetupPy.setup_install_requires call =
                 SetupPy.install_requires ++ (if ubuntu then ["python-apt"] else []) /\
               (In "python-apt" (SetupPy.setup_install_requires call) <-> ubuntu = true) /\
               SetupPy.packages call = fp ["craft_parts"; "craft_parts.*"]).
  { intros readme ubuntu Hr Hu. unfold SetupPy.script. rewrite Hr, Hu.
    eexists. split; [reflexivity |]. simpl.
    split; [reflexivity |]. split; [now destruct ubuntu; rewrite ?app_nil_r |].
    split; [| reflexivity].
    destruct ubuntu; simpl; split; intros H.
    - reflexivity.
    - do 6 right. now left.
    - repeat (destruct H as [H | H]; [discriminate H |]). destruct H.
    - discriminate H. }
  repeat split.
  - intros e Hr. unfold SetupPy.script. now rewrite Hr.
  - intros readme e Hr Hu. unfold SetupPy.script. now rewrite Hr, Hu.
  - exact Hok.
  - intros readme e Hr Ho Hf.
    destruct (Hok readme false Hr) as (call & Hc & _ & Hreq & _).
    + unfold SetupPy.is_ubuntu. now rewrite Ho, Hf.
    + exists call. split; [exact Hc |]. rewrite Hreq. apply app_nil_r.
Qed.

Lemma setup_script_requirements_witness :
  (exists call,
      SetupPy.script
        (SetupPy.files [("README.md", "Craft Parts");
                        ("/etc/os-release", "ID=ubuntu")]) (fun l => l) = Ok call /\
      SetupPy.setup_install_requires call =
        SetupPy.install_requires ++ ["python-apt"]) /\
  (exists call,
      SetupPy.script (SetupPy.files [("README.md", "Craft Parts")]) (fun l => l) = Ok call /\
      SetupPy.setup_install_requires call = SetupPy.install_requires) /\
  SetupPy.script (SetupPy.files [("/etc/os-release", "ID=ubuntu")]) (fun l => l) =
    Raise (OtherError "FileNotFoundError" "README.md").
Proof.
  split; [| split].
  - destruct (proj1 (proj2 (proj2 (setup_script_requirements
                (SetupPy.files [("README.md", "Craft Parts");
                                ("/etc/os-release", "ID=ubuntu")]) (fun l => l))))
              "Craft Parts" true eq_refl eq_refl)
      as (call & Hc & _ & Hreq & _).
    exists call. split; [exact Hc | exact Hreq].
  - exact (proj2 (proj2 (proj2 (setup_script_requirements
             (SetupPy.files [("README.md", "Craft Parts")]) (fun l => l))))
             "Craft Parts" (OtherError "FileNotFoundError" "/etc/os-release")
             eq_refl eq_refl eq_refl).
  - exact (proj1 (setup_script_requirements
             (SetupPy.files [("/etc/os-release", "ID=ubuntu")]) (fun l => l))
             (OtherError "FileNotFoundError" "README.md") eq_refl).
Defined.
